(** * VoteFight frontend: mock API client, battle service and polling hooks

    A shallow embedding of the TypeScript sources of the VoteFight
    frontend (mocks/data, services/mockApiClient, services/battleService,
    services/userService, hooks/useBattles, hooks/useAuth, hooks/useVoting,
    the personalized section, the create-battle form and the profile
    page's follow button) and of the vote-validation snippet of plan.md,
    followed by the properties checked against them. *)

From Stdlib Require Import List String Ascii Bool ZArith QArith Qround Lia.
From Stdlib Require Import DecimalString.
Import ListNotations.
Open Scope string_scope.

Set Implicit Arguments.
Set Warnings "-register-all".

(* ================================================================= *)
(** ** JavaScript values, strings and promises *)

Module Js.

(** [String.prototype.startsWith] on [string]. *)
Fixpoint startsWith (s sub : string) {struct sub} : bool :=
  match sub, s with
  | EmptyString, _ => true
  | String _ _, EmptyString => false
  | String c sub', String d s' => Ascii.eqb c d && startsWith s' sub'
  end.

(** [s.includes(sub)]: [sub] occurs somewhere in [s]. *)
Fixpoint includes (s sub : string) : bool :=
  startsWith s sub ||
  match s with
  | EmptyString => false
  | String _ s' => includes s' sub
  end.

(** [s.split(sep)] for a one-character separator: the pieces between
    the occurrences of [sep]; never the empty array. *)
Fixpoint split (sep : ascii) (s : string) : list string :=
  match s with
  | EmptyString => [EmptyString]
  | String c s' =>
      if Ascii.eqb c sep then EmptyString :: split sep s'
      else match split sep s' with
           | [] => [String c EmptyString]
           | p :: ps => String c p :: ps
           end
  end.

(** [arr.pop()]: the last element, [undefined] ([None]) on []. *)
Fixpoint pop {A} (l : list A) : option A :=
  match l with
  | [] => None
  | [x] => Some x
  | _ :: l' => pop l'
  end.

(** [arr.find(p)]. *)
Definition find {A} (p : A -> bool) (l : list A) : option A := List.find p l.

(** [Math.ceil] on a rational. *)
Definition Math_ceil (q : Q) : Z := Qceiling q.

(** A promise that has settled: [await] is [bind]. *)
Inductive Promise (A : Type) : Type :=
| Resolved (a : A)
| Rejected (message : string).
Arguments Resolved {A} a.
Arguments Rejected {A} message.

Definition bind {A B} (p : Promise A) (k : A -> Promise B) : Promise B :=
  match p with
  | Resolved a => k a
  | Rejected m => Rejected m
  end.

Definition is_rejected {A} (p : Promise A) : bool :=
  match p with Rejected _ => true | Resolved _ => false end.

End Js.

Notation "x <- p ;; k" := (Js.bind p (fun x => k))
  (at level 61, p at next level, right associativity).

Import Js.

(* ================================================================= *)
(** ** types/api.ts and mocks/data.ts *)

Record User := {
  user_id : string;
  username : string;
  email : string;
  avatar_url : string;
  bio : string;
  battles_count : Z;
  followers_count : Z;
  following_count : Z;
  total_votes_received : Z;
  user_created_at : string
}.

Inductive MediaType := text | image | audio | video | document.

Record BattleElement := {
  elem_id : string;
  name : string;
  media_type : MediaType;
  vote_count : Z;
  percentage : Z
}.

Record EngagementStats := {
  stats_total_votes : Z;
  likes : Z;
  shares : Z;
  comments : Z;
  views : Z
}.

Record Battle := {
  id : string;
  title : string;
  description : string;
  category : string;
  total_votes : Z;
  elements : list BattleElement;
  creator : User;
  created_at : string;
  is_active : bool;
  trending_score : Q;
  user_voted : bool;
  user_vote_element : option string;
  engagement_stats : EngagementStats
}.

Record VoteRequest := {
  battle_id : string;
  element_id : string;
  voter_ip : option string;
  fingerprint : option string
}.

Module Data.

Definition user_testuser : User := {|
  user_id := "1";
  username := "testuser";
  email := "test@example.com";
  avatar_url := "https://images.unsplash.com/photo-1472099645785-5658abf4ff4e?w=150&h=150&fit=crop&crop=face";
  bio := "VoteFight enthusiast and battle creator";
  battles_count := 15;
  followers_count := 120;
  following_count := 89;
  total_votes_received := 2500;
  user_created_at := "2024-01-15T10:30:00Z"
|}.

Definition user_battlemaster : User := {|
  user_id := "2";
  username := "battlemaster";
  email := "battle@example.com";
  avatar_url := "https://images.unsplash.com/photo-1507003211169-0a1dd7228f2d?w=150&h=150&fit=crop&crop=face";
  bio := "Creating epic battles since 2024";
  battles_count := 32;
  followers_count := 450;
  following_count := 120;
  total_votes_received := 8900;
  user_created_at := "2024-01-10T08:15:00Z"
|}.

Definition mockUsers : list User := [user_testuser; user_battlemaster].

Definition elem (i n : string) (votes pct : Z) : BattleElement :=
  {| elem_id := i; name := n; media_type := text;
     vote_count := votes; percentage := pct |}.

Definition stats (t l s c v : Z) : EngagementStats :=
  {| stats_total_votes := t; likes := l; shares := s; comments := c; views := v |}.

(** mockBattles[0] *)
Definition battle_iphone : Battle := {|
  id := "1";
  title := "iPhone vs Samsung";
  description := "Which smartphone is better for daily use?";
  category := "technology";
  total_votes := 1250;
  elements := [elem "1" "iPhone" 750 60; elem "2" "Samsung" 500 40];
  creator := user_testuser;
  created_at := "2024-01-20T14:30:00Z";
  is_active := true;
  trending_score := 855 # 10;
  user_voted := false;
  user_vote_element := None;
  engagement_stats := stats 1250 45 12 8 2500
|}.

(** mockBattles[1] *)
Definition battle_cola : Battle := {|
  id := "2";
  title := "Coca-Cola vs Pepsi";
  description := "The ultimate cola battle!";
  category := "food";
  total_votes := 890;
  elements := [elem "3" "Coca-Cola" 534 60; elem "4" "Pepsi" 356 40];
  creator := user_battlemaster;
  created_at := "2024-01-19T16:45:00Z";
  is_active := true;
  trending_score := 723 # 10;
  user_voted := true;
  user_vote_element := Some "3";
  engagement_stats := stats 890 32 18 15 1800
|}.

(** mockBattles[2] *)
Definition battle_netflix : Battle := {|
  id := "3";
  title := "Netflix vs Disney+";
  description := "Which streaming service do you prefer?";
  category := "entertainment";
  total_votes := 2100;
  elements := [elem "5" "Netflix" 1260 60; elem "6" "Disney+" 840 40];
  creator := user_testuser;
  created_at := "2024-01-18T12:20:00Z";
  is_active := true;
  trending_score := 912 # 10;
  user_voted := false;
  user_vote_element := None;
  engagement_stats := stats 2100 78 25 22 4200
|}.

(** mockBattles[3] *)
Definition battle_pizza : Battle := {|
  id := "4";
  title := "Pizza vs Burger";
  description := "What's your favorite fast food?";
  category := "food";
  total_votes := 650;
  elements := [elem "7" "Pizza" 390 60; elem "8" "Burger" 260 40];
  creator := user_battlemaster;
  created_at := "2024-01-17T09:15:00Z";
  is_active := true;
  trending_score := 587 # 10;
  user_voted := true;
  user_vote_element := Some "7";
  engagement_stats := stats 650 28 9 12 1300
|}.

(** mockBattles[4] *)
Definition battle_tesla : Battle := {|
  id := "5";
  title := "Tesla vs BMW";
  description := "Electric vs Luxury - which car would you choose?";
  category := "technology";
  total_votes := 1800;
  elements := [elem "9" "Tesla" 1080 60; elem "10" "BMW" 720 40];
  creator := user_testuser;
  created_at := "2024-01-16T11:30:00Z";
  is_active := true;
  trending_score := 889 # 10;
  user_voted := false;
  user_vote_element := None;
  engagement_stats := stats 1800 65 20 18 3600
|}.

Definition mockBattles : list Battle :=
  [battle_iphone; battle_cola; battle_netflix; battle_pizza; battle_tesla].

(** [mockBattles[i]] with constant, in-range indices. *)
Definition mockTrendingBattles : list Battle :=
  [ battle_netflix   (* mockBattles[2] *)
  ; battle_iphone    (* mockBattles[0] *)
  ; battle_tesla     (* mockBattles[4] *)
  ; battle_cola      (* mockBattles[1] *)
  ; battle_pizza     (* mockBattles[3] *) ].

Definition mockPersonalizedBattles : list Battle :=
  [ battle_iphone    (* mockBattles[0] *)
  ; battle_netflix   (* mockBattles[2] *)
  ; battle_tesla     (* mockBattles[4] *) ].

Definition mockQuickPicksBattles : list Battle :=
  [ battle_pizza     (* mockBattles[3] *)
  ; battle_cola      (* mockBattles[1] *)
  ; battle_iphone    (* mockBattles[0] *) ].

Definition getMockBattleById (i : string) : option Battle :=
  Js.find (fun battle => String.eqb battle.(id) i) mockBattles.

Definition getMockUserByUsername (u : string) : option User :=
  Js.find (fun user => String.eqb user.(username) u) mockUsers.

Definition getMockBattlesByCategory (c : string) : list Battle :=
  filter (fun battle => String.eqb battle.(category) c) mockBattles.

End Data.

(* ================================================================= *)
(** ** Untyped JavaScript values

    The mock client is written against [any]: responses are object
    literals, conditions are arbitrary values tested for truthiness. *)

Inductive Value : Type :=
| VUndefined
| VNull
| VBool (b : bool)
| VNum (q : Q)
| VStr (s : string)
| VUser (u : User)
| VBattle (b : Battle)
| VArr (items : list Value)
| VObj (fields : list (string * Value)).

Module JsValue.

(** ToBoolean. *)
Definition truthy (v : Value) : bool :=
  match v with
  | VUndefined | VNull => false
  | VBool b => b
  | VNum q => negb (Qeq_bool q 0)
  | VStr s => negb (String.eqb s "")
  | VUser _ | VBattle _ | VArr _ | VObj _ => true
  end.

(** [a && b] and [a || b] return one of their operands. *)
Definition and_ (a b : Value) : Value := if truthy a then b else a.
Definition or_ (a b : Value) : Value := if truthy a then a else b.

Definition toString_bool (b : bool) : string := if b then "true" else "false".

(** [b + s] for a boolean [b] and a string [s]: string concatenation
    of ToString(b) and [s]. *)
Definition add_bool_string (b : bool) (s : string) : Value :=
  VStr (toString_bool b ++ s).

Fixpoint lookup (k : string) (fields : list (string * Value)) : option Value :=
  match fields with
  | [] => None
  | (k', v) :: rest => if String.eqb k k' then Some v else lookup k rest
  end.

(** The text of an array index, and the index a property key denotes:
    a key is an index when it is the canonical decimal text of a
    natural number. *)
Definition index_key (n : nat) : string :=
  NilEmpty.string_of_uint (Nat.to_uint n).

Definition array_index (k : string) : option nat :=
  match NilEmpty.uint_of_string k with
  | Some u =>
      if String.eqb (index_key (Nat.of_uint u)) k then Some (Nat.of_uint u)
      else None
  | None => None
  end.

Definition number_of_Z (z : Z) : Value := VNum (inject_Z z).

Definition media_type_text (m : MediaType) : string :=
  match m with
  | text => "text"
  | image => "image"
  | audio => "audio"
  | video => "video"
  | document => "document"
  end.

(** The properties of the typed objects, in the order of the object
    literals of mocks/data.ts. *)
Definition user_fields (u : User) : list (string * Value) :=
  [("id", VStr u.(user_id));
   ("username", VStr u.(username));
   ("email", VStr u.(email));
   ("avatar_url", VStr u.(avatar_url));
   ("bio", VStr u.(bio));
   ("battles_count", number_of_Z u.(battles_count));
   ("followers_count", number_of_Z u.(followers_count));
   ("following_count", number_of_Z u.(following_count));
   ("total_votes_received", number_of_Z u.(total_votes_received));
   ("created_at", VStr u.(user_created_at))].

Definition element_fields (e : BattleElement) : list (string * Value) :=
  [("id", VStr e.(elem_id));
   ("name", VStr e.(name));
   ("media_type", VStr (media_type_text e.(media_type)));
   ("vote_count", number_of_Z e.(vote_count));
   ("percentage", number_of_Z e.(percentage))].

Definition stats_fields (t : EngagementStats) : list (string * Value) :=
  [("total_votes", number_of_Z t.(stats_total_votes));
   ("likes", number_of_Z t.(likes));
   ("shares", number_of_Z t.(shares));
   ("comments", number_of_Z t.(comments));
   ("views", number_of_Z t.(views))].

Definition battle_fields (b : Battle) : list (string * Value) :=
  [("id", VStr b.(id));
   ("title", VStr b.(title));
   ("description", VStr b.(description));
   ("category", VStr b.(category));
   ("total_votes", number_of_Z b.(total_votes));
   ("elements", VArr (map (fun e => VObj (element_fields e)) b.(elements)));
   ("creator", VUser b.(creator));
   ("created_at", VStr b.(created_at));
   ("is_active", VBool b.(is_active));
   ("trending_score", VNum b.(trending_score));
   ("user_voted", VBool b.(user_voted));
   ("user_vote_element",
    match b.(user_vote_element) with Some e => VStr e | None => VNull end);
   ("engagement_stats", VObj (stats_fields b.(engagement_stats)))].

(** The characters of a string, one string each. *)
Fixpoint characters (s : string) : list Value :=
  match s with
  | EmptyString => []
  | String c s' => VStr (String c EmptyString) :: characters s'
  end.

(** The elements of an array or the characters of a string under their
    index keys. *)
Definition indexed (items : list Value) : list (string * Value) :=
  combine (map index_key (seq 0 (List.length items))) items.

Definition item_at (items : list Value) (k : string) : Value :=
  match array_index k with
  | Some n => match nth_error items n with Some v => v | None => VUndefined end
  | None => VUndefined
  end.

Definition found (o : option Value) : Value :=
  match o with Some v => v | None => VUndefined end.

(** [o.k] on a value that is neither [undefined] nor [null]: a data
    property of an object, an element or the length of an array, a
    character or the length of a string; numbers and booleans have
    none. *)
Definition get_field (o : Value) (k : string) : Value :=
  match o with
  | VObj fields => match lookup k fields with Some v => v | None => VUndefined end
  | VBattle b => found (lookup k (battle_fields b))
  | VUser u => found (lookup k (user_fields u))
  | VArr items =>
      if String.eqb k "length"
      then VNum (inject_Z (Z.of_nat (List.length items)))
      else item_at items k
  | VStr s =>
      if String.eqb k "length"
      then VNum (inject_Z (Z.of_nat (String.length s)))
      else item_at (characters s) k
  | _ => VUndefined
  end.

(** [o?.k] *)
Definition get_field_opt (o : Value) (k : string) : Value :=
  match o with
  | VUndefined | VNull => VUndefined
  | _ => get_field o k
  end.

(** [o.k] in general: a TypeError on [undefined] and [null]. *)
Definition member (o : Value) (k : string) : Promise Value :=
  match o with
  | VUndefined | VNull => Rejected "Cannot read properties of undefined"
  | _ => Resolved (get_field o k)
  end.

Definition has_field (o : Value) (k : string) : bool :=
  match o with
  | VObj fields => match lookup k fields with Some _ => true | None => false end
  | VBattle b => match lookup k (battle_fields b) with Some _ => true | None => false end
  | VUser u => match lookup k (user_fields u) with Some _ => true | None => false end
  | VArr items =>
      String.eqb k "length"
      || match lookup k (indexed items) with Some _ => true | None => false end
  | VStr s =>
      String.eqb k "length"
      || match lookup k (indexed (characters s)) with Some _ => true | None => false end
  | _ => false
  end.

(** Evaluation of an object literal, key after key: a later key of
    the same name overwrites the value in place. *)
Fixpoint set_field (k : string) (v : Value) (fields : list (string * Value))
  : list (string * Value) :=
  match fields with
  | [] => [(k, v)]
  | (k', v') :: rest =>
      if String.eqb k k' then (k', v) :: rest else (k', v') :: set_field k v rest
  end.

Definition object_literal (kvs : list (string * Value)) : Value :=
  VObj (fold_left (fun acc kv => set_field (fst kv) (snd kv) acc) kvs []).

(** The own enumerable properties copied by [...data] in an object
    literal: the fields of an object, the elements of an array and the
    characters of a string under their indices, nothing for the other
    values. *)
Definition spread (v : Value) : list (string * Value) :=
  match v with
  | VObj fields => fields
  | VBattle b => battle_fields b
  | VUser u => user_fields u
  | VArr items => indexed items
  | VStr s => indexed (characters s)
  | _ => []
  end.

Definition Array_isArray (v : Value) : bool :=
  match v with VArr _ => true | _ => false end.

(** [s === v] for a string [s]. *)
Definition strict_eq_string (s : string) (v : Value) : bool :=
  match v with VStr s' => String.eqb s s' | _ => false end.

Definition of_option {A} (f : A -> Value) (o : option A) : Value :=
  match o with Some a => f a | None => VUndefined end.

Definition number_of_nat (n : nat) : Q := inject_Z (Z.of_nat n).

End JsValue.

Import JsValue.

(* ================================================================= *)
(** ** services/mockApiClient.ts *)

Module MockApiClient.
Import Data.

(** [delay(ms)]: resolves (to [undefined]) after [ms] milliseconds. *)
Definition delay (ms : Z) : Promise unit := Resolved tt.

Definition battles_value (battles : list Battle) : Value :=
  VArr (map VBattle battles).

(** The two values read from the runtime by the create-battle branch:
    [Math.random().toString(36).substr(2, 9)] and
    [new Date().toISOString()]. *)
Record Env := { random_id : string; now_iso : string }.

(** The first routing condition of [get], as written:
    [url.includes('/battles/') && !url.includes('/battles/') + '/']. *)
Definition battles_list_condition (url : string) : Value :=
  and_ (VBool (includes url "/battles/"))
       (add_bool_string (negb (includes url "/battles/")) "/").

Definition users_list_condition (url : string) : Value :=
  and_ (VBool (includes url "/users/"))
       (add_bool_string (negb (includes url "/users/")) "/").

Definition battles_list_branch (config : Value) : Promise Value :=
  let params := or_ (get_field_opt config "params") (VObj []) in
  let battles := mockBattles in
  let battles :=
    if truthy (get_field params "category")
    then filter (fun battle =>
                   strict_eq_string battle.(category) (get_field params "category"))
                battles
    else battles in
  let battles := if truthy (get_field params "trending")
                 then mockTrendingBattles else battles in
  let battles := if truthy (get_field params "personalized")
                 then mockPersonalizedBattles else battles in
  let battles := if truthy (get_field params "quick_picks")
                 then mockQuickPicksBattles else battles in
  Resolved
    (VObj [("data",
       VObj [("success", VBool true);
             ("data", battles_value battles);
             ("meta",
              VObj [("pagination",
                VObj [("page", VNum 1);
                      ("per_page", VNum 20);
                      ("total", VNum (number_of_nat (List.length battles)));
                      ("pages",
                       VNum (inject_Z
                               (Math_ceil (number_of_nat (List.length battles) / 20))))])])])]).

Definition single_battle_branch (url : string) : Promise Value :=
  let battleId := pop (split "/" url) in
  let battle :=
    match battleId with
    | Some i => getMockBattleById i
    | None => None
    end in
  match battle with
  | None => Rejected "Battle not found"
  | Some b =>
      Resolved (VObj [("data", VObj [("success", VBool true); ("data", VBattle b)])])
  end.

Definition single_user_branch (url : string) : Promise Value :=
  let username := pop (split "/" url) in
  let user :=
    match username with
    | Some u => getMockUserByUsername u
    | None => None
    end in
  match user with
  | None => Rejected "User not found"
  | Some u =>
      Resolved (VObj [("data", VObj [("success", VBool true); ("data", VUser u)])])
  end.

Definition ok_data (v : Value) : Promise Value :=
  Resolved (VObj [("data", VObj [("success", VBool true); ("data", v)])]).

Definition ok_message (m : string) : Promise Value :=
  Resolved (VObj [("data", VObj [("success", VBool true); ("message", VStr m)])]).

Definition get (url : string) (config : Value) : Promise Value :=
  _ <- delay 300 ;;
  if truthy (battles_list_condition url) then battles_list_branch config
  else if includes url "/battles/" && (2 <? List.length (split "/" url))%nat
  then single_battle_branch url
  else if truthy (users_list_condition url) then ok_data (VArr (map VUser mockUsers))
  else if includes url "/users/" && (2 <? List.length (split "/" url))%nat
  then single_user_branch url
  else if includes url "/trending/" then ok_data (battles_value mockTrendingBattles)
  else if includes url "/personalized/" then ok_data (battles_value mockPersonalizedBattles)
  else if includes url "/quick-picks/" then ok_data (battles_value mockQuickPicksBattles)
  else ok_data (VArr []).

Definition login_response : Promise Value :=
  ok_data (VObj [("user", of_option VUser (nth_error mockUsers 0));
                 ("token", VStr "mock-jwt-token")]).

Definition newBattle (env : Env) (data : Value) : Value :=
  object_literal
    ([("id", VStr env.(random_id))]
     ++ spread data
     ++ [("creator", of_option VUser (nth_error mockUsers 0));
         ("created_at", VStr env.(now_iso));
         ("is_active", VBool true);
         ("trending_score", VNum 0);
         ("total_votes", VNum 0);
         ("user_voted", VBool false);
         ("user_vote_element", VNull);
         ("engagement_stats",
          VObj [("total_votes", VNum 0); ("likes", VNum 0); ("shares", VNum 0);
                ("comments", VNum 0); ("views", VNum 0)])]).

Definition post (env : Env) (url : string) (data : Value) : Promise Value :=
  _ <- delay 200 ;;
  if includes url "/auth/login/" then login_response
  else if includes url "/auth/register/" then login_response
  else if includes url "/battles/" && includes url "/vote/"
  then ok_message "Vote submitted successfully"
  else if includes url "/battles/" && includes url "/like/"
  then ok_message "Battle liked successfully"
  else if includes url "/battles/" && includes url "/share/"
  then ok_message "Battle shared successfully"
  else if includes url "/battles/" && negb (includes url "/vote/")
          && negb (includes url "/like/") && negb (includes url "/share/")
  then ok_data (newBattle env data)
  else ok_message "Operation completed successfully".

Definition put (url : string) (data : Value) : Promise Value :=
  _ <- delay 200 ;;
  ok_data data.

Definition delete (url : string) : Promise Value :=
  _ <- delay 200 ;;
  ok_message "Deleted successfully".

End MockApiClient.

(* ================================================================= *)
(** ** services/battleService.ts *)

(** The part of an HTTP client the services use. *)
Record Client := {
  client_get : string -> Value -> Promise Value;
  client_post : string -> Value -> Promise Value
}.

Module BattleService.

Definition optional_field (k : string) (o : option string)
  : list (string * Value) :=
  match o with Some s => [(k, VStr s)] | None => [] end.

(** A [VoteRequest] object as it is handed to [client.post]. *)
Definition vote_request_value (data : VoteRequest) : Value :=
  VObj ([("battle_id", VStr data.(battle_id));
         ("element_id", VStr data.(element_id))]
        ++ optional_field "voter_ip" data.(voter_ip)
        ++ optional_field "fingerprint" data.(fingerprint)).

Section WithClient.
(** [process.env.NODE_ENV], the axios client of services/apiClient
    (any client will do) and the runtime values the mock client reads. *)
Variable NODE_ENV : string.
Variable apiClient : Client.
Variable env : MockApiClient.Env.

Definition mockApiClient : Client :=
  {| client_get := MockApiClient.get;
     client_post := MockApiClient.post env |}.

Definition client : Client :=
  if String.eqb NODE_ENV "development" then mockApiClient else apiClient.

Definition getBattles (filters : Value) : Promise Value :=
  response <- client.(client_get) "/battles/" (VObj [("params", filters)]) ;;
  member response "data".

Definition getBattle (i : string) : Promise Value :=
  response <- client.(client_get) ("/battles/" ++ i ++ "/") VUndefined ;;
  member response "data".

Definition createBattle (data : Value) : Promise Value :=
  response <- client.(client_post) "/battles/" data ;;
  member response "data".

Definition voteBattle (data : VoteRequest) : Promise unit :=
  _ <- client.(client_post) ("/battles/" ++ data.(battle_id) ++ "/vote/")
         (vote_request_value data) ;;
  Resolved tt.

Definition likeBattle (i : string) : Promise unit :=
  _ <- client.(client_post) ("/battles/" ++ i ++ "/like/") VUndefined ;;
  Resolved tt.

Definition shareBattle (i : string) : Promise unit :=
  _ <- client.(client_post) ("/battles/" ++ i ++ "/share/") VUndefined ;;
  Resolved tt.

Definition getTrendingBattles : Promise Value :=
  response <- client.(client_get) "/trending/" VUndefined ;;
  member response "data".

Definition getPersonalizedBattles : Promise Value :=
  response <- client.(client_get) "/personalized/" VUndefined ;;
  member response "data".

Definition getQuickPicksBattles : Promise Value :=
  response <- client.(client_get) "/quick-picks/" VUndefined ;;
  member response "data".

Definition getBattlesByCategory (c : string) : Promise Value :=
  response <- client.(client_get) "/battles/"
                (VObj [("params", VObj [("category", VStr c)])]) ;;
  member response "data".

End WithClient.

End BattleService.

(* ================================================================= *)
(** ** hooks/useVoting.ts *)

Module UseVoting.

Inductive Toast :=
| toast_success (m : string)
| toast_error (m : string).

(** [voteBattle] of the hook: the toast shown and the settled promise
    (the error is re-thrown after the error toast). *)
Definition voteBattle (service_vote : VoteRequest -> Promise unit)
           (data : VoteRequest) : Toast * Promise unit :=
  match service_vote data with
  | Resolved _ => (toast_success "Vote submitted successfully!", Resolved tt)
  | Rejected m =>
      (toast_error (if String.eqb m "" then "Failed to submit vote" else m),
       Rejected m)
  end.

End UseVoting.

(* ================================================================= *)
(** ** hooks/useBattles.ts

    The effect bodies of the six hooks, over the part of the browser
    runtime they touch: the table of running intervals and the log of
    fetch calls made so far. *)

Module UseBattles.

(** The fetch closure of each hook, with the arguments it captured. *)
Inductive Fetch :=
| fetchBattles (filters : Value)
| fetchBattle (i : string)
| fetchTrending
| fetchPersonalized
| fetchQuickPicks
| fetchCategoryBattles (c : string).

Record Interval := {
  handle : nat;
  callback : Fetch;
  delay_ms : Z
}.

Record Runtime := {
  intervals : list Interval;
  next_handle : nat;
  fetched : list Fetch
}.

Definition initial : Runtime :=
  {| intervals := []; next_handle := 1; fetched := [] |}.

(** Calling a fetch closure: one more request is under way. *)
Definition call (f : Fetch) (rt : Runtime) : Runtime :=
  {| intervals := rt.(intervals);
     next_handle := rt.(next_handle);
     fetched := rt.(fetched) ++ [f] |}.

Definition setInterval (f : Fetch) (ms : Z) (rt : Runtime) : nat * Runtime :=
  (rt.(next_handle),
   {| intervals := rt.(intervals)
                   ++ [{| handle := rt.(next_handle); callback := f; delay_ms := ms |}];
      next_handle := S rt.(next_handle);
      fetched := rt.(fetched) |}).

Definition clearInterval (h : nat) (rt : Runtime) : Runtime :=
  {| intervals := filter (fun i => negb (Nat.eqb i.(handle) h)) rt.(intervals);
     next_handle := rt.(next_handle);
     fetched := rt.(fetched) |}.

(** What [useEffect]'s callback returns: the cleanup closure, if any. *)
Definition Cleanup := option (Runtime -> Runtime).

Definition poll (f : Fetch) (rt : Runtime) : Runtime * Cleanup :=
  let rt := call f rt in
  let '(interval, rt) := setInterval f (5 * 60 * 1000) rt in
  (rt, Some (clearInterval interval)).

Definition useBattles_effect (filters : Value) (rt : Runtime) : Runtime * Cleanup :=
  poll (fetchBattles filters) rt.

Definition useBattle_effect (i : string) (rt : Runtime) : Runtime * Cleanup :=
  if truthy (VStr i) then poll (fetchBattle i) rt else (rt, None).

Definition useTrendingBattles_effect (rt : Runtime) : Runtime * Cleanup :=
  poll fetchTrending rt.

Definition usePersonalizedBattles_effect (rt : Runtime) : Runtime * Cleanup :=
  poll fetchPersonalized rt.

Definition useQuickPicksBattles_effect (rt : Runtime) : Runtime * Cleanup :=
  poll fetchQuickPicks rt.

Definition useBattlesByCategory_effect (c : string) (rt : Runtime)
  : Runtime * Cleanup :=
  if truthy (VStr c) then poll (fetchCategoryBattles c) rt else (rt, None).

(** The six battle-fetching hooks with their arguments. *)
Inductive Hook :=
| useBattles (filters : Value)
| useBattle (i : string)
| useTrendingBattles
| usePersonalizedBattles
| useQuickPicksBattles
| useBattlesByCategory (c : string).

Definition effect (h : Hook) : Runtime -> Runtime * Cleanup :=
  match h with
  | useBattles filters => useBattles_effect filters
  | useBattle i => useBattle_effect i
  | useTrendingBattles => useTrendingBattles_effect
  | usePersonalizedBattles => usePersonalizedBattles_effect
  | useQuickPicksBattles => useQuickPicksBattles_effect
  | useBattlesByCategory c => useBattlesByCategory_effect c
  end.

Definition fetch_of (h : Hook) : Fetch :=
  match h with
  | useBattles filters => fetchBattles filters
  | useBattle i => fetchBattle i
  | useTrendingBattles => fetchTrending
  | usePersonalizedBattles => fetchPersonalized
  | useQuickPicksBattles => fetchQuickPicks
  | useBattlesByCategory c => fetchCategoryBattles c
  end.

(** The guard in front of the effect body: [if (id)], [if (category)]. *)
Definition guard (h : Hook) : bool :=
  match h with
  | useBattle i => truthy (VStr i)
  | useBattlesByCategory c => truthy (VStr c)
  | _ => true
  end.

Definition run_cleanup (c : Cleanup) (rt : Runtime) : Runtime :=
  match c with Some f => f rt | None => rt end.

(** [setInterval]'s contract: the callback runs once every [delay_ms]
    milliseconds, so [elapsed / delay_ms] times within [elapsed]. *)
Definition runs_within (elapsed : Z) (i : Interval) : nat :=
  Z.to_nat (elapsed / i.(delay_ms)).

Definition advance (elapsed : Z) (rt : Runtime) : Runtime :=
  {| intervals := rt.(intervals);
     next_handle := rt.(next_handle);
     fetched := rt.(fetched)
                ++ flat_map (fun i => repeat i.(callback) (runs_within elapsed i))
                            rt.(intervals) |}.

(** Handles handed out so far are below [next_handle]. *)
Definition handles_fresh (rt : Runtime) : Prop :=
  Forall (fun i => (i.(handle) < rt.(next_handle))%nat) rt.(intervals).

(** The engine's tick default in the specification, in minutes. *)
Definition tick_minutes : Z := 5.

Definition minutes_to_ms (m : Z) : Z := (m * 60 * 1000)%Z.

Definition polling_interval (h : Hook) (rt : Runtime) : Interval :=
  {| handle := rt.(next_handle);
     callback := fetch_of h;
     delay_ms := 5 * 60 * 1000 |}.

End UseBattles.

(* ================================================================= *)
(** ** plan.md: the votes table and [validate_vote] *)

Module Plan.

(** A row of [CREATE TABLE votes]. *)
Record Vote := {
  battle_id : string;
  element_id : string;
  voter_ip : string;
  fingerprint : string;
  session_id : option string
}.

Definition key (v : Vote) : string * string * string :=
  (v.(battle_id), v.(voter_ip), v.(fingerprint)).

Definition key_eqb (k1 k2 : string * string * string) : bool :=
  let '(b1, i1, f1) := k1 in
  let '(b2, i2, f2) := k2 in
  String.eqb b1 b2 && String.eqb i1 i2 && String.eqb f1 f2.

(** [UNIQUE(battle_id, voter_ip, fingerprint)] *)
Definition unique (table : list Vote) : Prop := NoDup (map key table).

Inductive Result (A : Type) :=
| Return (a : A)
| Raise (message : string).
Arguments Return {A} a.
Arguments Raise {A} message.

Section ValidateVote.
(** The request and the two helpers [validate_vote] calls on it. *)
Variable Request : Type.
Variable get_client_ip : Request -> string.
Variable generate_fingerprint : Request -> string.

Definition validate_vote (table : list Vote)
           (battle : string) (element : string) (request : Request)
  : Result bool :=
  let ip := get_client_ip request in
  let fp := generate_fingerprint request in
  let existing_vote :=
    existsb (fun v => key_eqb (key v) (battle, ip, fp)) table in
  if existing_vote then Raise "You've already voted!" else Return true.

End ValidateVote.

End Plan.

(* ================================================================= *)
(** ** The properties' vocabulary *)

Module Ranking.

Definition Qltb (x y : Q) : bool := negb (Qle_bool y x).

(** The ranking order in the specification's words: the higher score
    first; on equal scores the more recent creation timestamp first
    (ISO-8601 UTC strings of one format, compared as strings); on a
    further tie the lower identifier first. *)
Definition ranks_before (a b : Battle) : bool :=
  Qltb b.(trending_score) a.(trending_score)
  || (Qeq_bool a.(trending_score) b.(trending_score)
      && (String.ltb b.(created_at) a.(created_at)
          || (String.eqb a.(created_at) b.(created_at)
              && String.ltb a.(id) b.(id)))).

(** A list is ranked when whatever ranks before something also
    stands before it. *)
Definition totally_ordered (l : list Battle) : Prop :=
  forall i j a b,
    nth_error l i = Some a -> nth_error l j = Some b ->
    ranks_before a b = true -> (i < j)%nat.

(** A battle the viewer can still vote on. *)
Definition eligible (b : Battle) : bool :=
  b.(is_active) && negb b.(user_voted).

(** No inactive or already-voted battle stands above an eligible one. *)
Definition needs_vote_ordered (l : list Battle) : Prop :=
  forall i j a b,
    nth_error l i = Some a -> nth_error l j = Some b -> (i < j)%nat ->
    eligible a = false -> eligible b = false.

(** No inactive battle stands above an eligible one. *)
Definition inactive_below_eligible (l : list Battle) : Prop :=
  forall i j a b,
    nth_error l i = Some a -> nth_error l j = Some b -> (i < j)%nat ->
    a.(is_active) = false -> eligible b = false.

Definition battle_of (v : Value) : list Battle :=
  match v with VBattle b => [b] | _ => [] end.

(** The battles a service call hands to its caller: the items of the
    [data] array of what it resolved to. *)
Definition returned_battles (p : Promise Value) : list Battle :=
  match p with
  | Resolved v =>
      match get_field v "data" with
      | VArr items => flat_map battle_of items
      | _ => []
      end
  | Rejected _ => []
  end.

(** What the battles-list branch selects for a category filter. *)
Definition category_battles (c : string) : list Battle :=
  if String.eqb c "" then Data.mockBattles
  else Data.getMockBattlesByCategory c.

End Ranking.

Module Voting.

(** Two requests of one identity for one battle. *)
Definition same_identity (d1 d2 : VoteRequest) : Prop :=
  d1.(battle_id) = d2.(battle_id)
  /\ d1.(voter_ip) = d2.(voter_ip)
  /\ d1.(fingerprint) = d2.(fingerprint).

(** A vote attempt and the time it is made at, in milliseconds. *)
Record Attempt := { at_ms : Z; request : VoteRequest }.

(** A vote is accepted when the service call resolves and rejected
    when it throws (hooks/useVoting.ts tells them apart this way). *)
Definition accepted (p : Promise unit) : bool := negb (is_rejected p).

(** The rate limit's defaults in the specification: N attempts per
    window of W milliseconds. *)
Definition N : nat := 20.
Definition W : Z := 60 * 1000.

(** A client that cannot reach any backend. *)
Definition offline : Client :=
  {| client_get := fun _ _ => Rejected "Network Error";
     client_post := fun _ _ => Rejected "Network Error" |}.

Definition env0 : MockApiClient.Env :=
  {| MockApiClient.random_id := "k3j9x2m1q";
     MockApiClient.now_iso := "2024-01-21T00:00:00.000Z" |}.

(** The service in development mode. *)
Definition dev_voteBattle (apiClient : Client) (env : MockApiClient.Env)
  : VoteRequest -> Promise unit :=
  BattleService.voteBattle "development" apiClient env.

(** Attempts submitted one after the other; the client reads no clock. *)
Definition submit_all (apiClient : Client) (env : MockApiClient.Env)
           (attempts : list Attempt) : list (Promise unit) :=
  map (fun a => dev_voteBattle apiClient env a.(request)) attempts.

(** The claims, as predicates on a vote-submission function. *)

(** Of two votes of one identity for one battle made in sequence the
    first is accepted and the second rejected. *)
Definition duplicate_rejected (vote : VoteRequest -> Promise unit)
           (d1 d2 : VoteRequest) : Prop :=
  same_identity d1 d2 ->
  accepted (vote d1) = true /\ is_rejected (vote d2) = true.

(** Of [N + 1] attempts within one window the last is rejected. *)
Definition within_window (attempts : list Attempt) : Prop :=
  Forall (fun a => (0 <= a.(at_ms) < W)%Z) attempts.

Definition rate_limit_enforced (results : list (Promise unit)) : Prop :=
  exists p, nth_error results N = Some p /\ is_rejected p = true.

Definition references_active_battle (d : VoteRequest) : bool :=
  existsb (fun b => String.eqb b.(id) d.(battle_id) && b.(is_active))
          Data.mockBattles.

Definition element_belongs (d : VoteRequest) : bool :=
  existsb (fun b => String.eqb b.(id) d.(battle_id)
                    && existsb (fun e => String.eqb e.(elem_id) d.(element_id))
                               b.(elements))
          Data.mockBattles.

(** A vote for no active battle, or for an element of another battle,
    is rejected. *)
Definition invalid_vote_rejected (vote : VoteRequest -> Promise unit)
           (d : VoteRequest) : Prop :=
  references_active_battle d && element_belongs d = false ->
  is_rejected (vote d) = true.

Definition vote (battle element ip fp : string) : VoteRequest :=
  {| battle_id := battle; element_id := element;
     voter_ip := Some ip; fingerprint := Some fp |}.

(** The k-th device behind one address. *)
Fixpoint device (k : nat) : string :=
  match k with
  | O => "device"
  | S k' => String "x" (device k')
  end.

(** [n] attempts from one address, one per second, each from another
    device. *)
Definition burst (n : nat) : list Attempt :=
  map (fun k => {| at_ms := 1000 * Z.of_nat k;
                   request := vote "1" "1" "203.0.113.7" (device k) |})
      (seq 0 n).

(** [K] attempts with one request, fired at one instant. *)
Definition simultaneous (K : nat) (t : Z) (d : VoteRequest) : list Attempt :=
  repeat {| at_ms := t; request := d |} K.

(** Exactly one of the attempts is accepted and every other one is
    rejected. *)
Definition one_accepted_rest_rejected (results : list (Promise unit)) : Prop :=
  List.length (filter accepted results) = 1%nat
  /\ List.length (filter (@is_rejected unit) results)
     = (List.length results - 1)%nat.

End Voting.

Module Envelope.
Import MockApiClient.

(** The envelope of the battles-list branch: [success], [data], [meta]. *)
Definition list_envelope (battles : list Battle) : Value :=
  VObj [("success", VBool true);
        ("data", battles_value battles);
        ("meta",
         VObj [("pagination",
           VObj [("page", VNum 1);
                 ("per_page", VNum 20);
                 ("total", VNum (number_of_nat (List.length battles)));
                 ("pages",
                  VNum (inject_Z
                          (Math_ceil (number_of_nat (List.length battles) / 20))))])])].

(** The envelope of the other branches: [success] and [data]. *)
Definition data_envelope (v : Value) : Value :=
  VObj [("success", VBool true); ("data", v)].

Definition resolves_to_array (p : Promise Value) : bool :=
  match p with
  | Resolved v => Array_isArray v
  | Rejected _ => false
  end.

(** A client whose responses carry the bare array: with it the same
    service code does resolve to an array. *)
Definition bare_array_client : Client :=
  {| client_get := fun _ _ =>
       Resolved (VObj [("data", battles_value Data.mockBattles)]);
     client_post := fun _ _ => Resolved (VObj [("data", VUndefined)]) |}.

(** [config?.params || {}] for the config [getBattles] passes. *)
Definition params_of (filters : Value) : Value := or_ filters (VObj []).

(** The keys the create-battle branch writes after [...data]. *)
Definition server_keys : list string :=
  ["creator"; "created_at"; "is_active"; "trending_score"; "total_votes";
   "user_voted"; "user_vote_element"; "engagement_stats"].

Definition is_server_key (k : string) : bool :=
  existsb (String.eqb k) server_keys.

(** The list the battles-list branch answers with, assigned step by
    step as in the branch. *)
Definition selected_battles (params : Value) : list Battle :=
  let battles := Data.mockBattles in
  let battles :=
    if truthy (get_field params "category")
    then filter (fun battle =>
                   strict_eq_string battle.(category) (get_field params "category"))
                battles
    else battles in
  let battles := if truthy (get_field params "trending")
                 then Data.mockTrendingBattles else battles in
  let battles := if truthy (get_field params "personalized")
                 then Data.mockPersonalizedBattles else battles in
  let battles := if truthy (get_field params "quick_picks")
                 then Data.mockQuickPicksBattles else battles in
  battles.

End Envelope.

(** A list checked pair by pair. *)
Section PairwiseCheck.
Variable A : Type.
Variable R : A -> A -> bool.

(** [R a b] for every [a] that stands before a [b]. *)
Fixpoint pairwise (l : list A) : bool :=
  match l with
  | [] => true
  | a :: rest => forallb (R a) rest && pairwise rest
  end.

End PairwiseCheck.

(* ================================================================= *)
(** ** services/userService.ts *)

(** The user service also calls [put] and [delete]. *)
Record HttpClient := {
  base : Client;
  client_put : string -> Value -> Promise Value;
  client_delete : string -> Promise Value
}.

Module UserService.

Section WithClient.
Variable NODE_ENV : string.
Variable apiClient : HttpClient.
Variable env : MockApiClient.Env.

Definition mockApiClient : HttpClient :=
  {| base := BattleService.mockApiClient env;
     client_put := MockApiClient.put;
     client_delete := MockApiClient.delete |}.

Definition client : HttpClient :=
  if String.eqb NODE_ENV "development" then mockApiClient else apiClient.

Definition login (data : Value) : Promise Value :=
  response <- client.(base).(client_post) "/auth/login/" data ;;
  member response "data".

Definition register (data : Value) : Promise Value :=
  response <- client.(base).(client_post) "/auth/register/" data ;;
  member response "data".

Definition getUserProfile (u : string) : Promise Value :=
  response <- client.(base).(client_get) ("/users/" ++ u ++ "/") VUndefined ;;
  member response "data".

Definition getUserBattles (u : string) : Promise Value :=
  response <- client.(base).(client_get) ("/users/" ++ u ++ "/battles/") VUndefined ;;
  member response "data".

Definition updateProfile (data : Value) : Promise Value :=
  response <- client.(client_put) "/users/me/" data ;;
  member response "data".

Definition followUser (u : string) : Promise unit :=
  _ <- client.(base).(client_post) ("/users/" ++ u ++ "/follow/") VUndefined ;;
  Resolved tt.

Definition unfollowUser (u : string) : Promise unit :=
  _ <- client.(client_delete) ("/users/" ++ u ++ "/follow/") ;;
  Resolved tt.

End WithClient.

End UserService.

(* ================================================================= *)
(** ** hooks/useAuth.ts *)

Module UseAuth.

(** [err.message || fallback] *)
Definition message_or (m fallback : string) : string :=
  if String.eqb m "" then fallback else m.

Section ToString.
(** The decimal text of a number, the one part of ToString that is
    left open. *)
Variable number_toString : Q -> string.

Definition join (sep : string) (l : list string) : string := String.concat sep l.

(** ToString, as [localStorage.setItem] applies it to its value. *)
Fixpoint ToString (v : Value) : string :=
  match v with
  | VUndefined => "undefined"
  | VNull => "null"
  | VBool b => toString_bool b
  | VNum q => number_toString q
  | VStr s => s
  | VUser _ | VBattle _ | VObj _ => "[object Object]"
  | VArr items =>
      join ","
        (map (fun x => match x with
                       | VUndefined | VNull => ""
                       | _ => ToString x
                       end) items)
  end.

End ToString.

(** The hook's state and the [auth_token] entry of [localStorage]. *)
Record State := {
  user : Value;
  loading : bool;
  error : option string;
  auth_token : option string
}.

(** The object literal [mockUser] of [checkAuth]. *)
Definition mockUser : User := {|
  user_id := "1";
  username := "testuser";
  email := "test@example.com";
  avatar_url := "https://images.unsplash.com/photo-1472099645785-5658abf4ff4e?w=150&h=150&fit=crop&crop=face";
  bio := "VoteFight enthusiast and battle creator";
  battles_count := 15;
  followers_count := 120;
  following_count := 89;
  total_votes_received := 2500;
  user_created_at := "2024-01-15T10:30:00Z"
|}.

(** [if (token)] on what [localStorage.getItem] returned. *)
Definition token_truthy (token : option string) : bool :=
  match token with
  | Some s => negb (String.eqb s "")
  | None => false
  end.

Definition checkAuth (st : State) : State :=
  {| user := if token_truthy st.(auth_token) then VUser mockUser else VNull;
     loading := false;
     error := None;
     auth_token := st.(auth_token) |}.

Definition isAuthenticated (st : State) : bool := truthy st.(user).


Section WithService.
Variable number_toString : Q -> string.
Variable NODE_ENV : string.
Variable apiClient : HttpClient.
Variable env : MockApiClient.Env.

(** [login] and [register]: the same body around another service call
    and another fallback message. *)
Definition sign_in (call : Promise Value) (fallback : string) (st : State)
  : State * Promise Value :=
  match (response <- call ;;
         token <- member response "token" ;;
         u <- member response "user" ;;
         Resolved (response, token, u)) with
  | Resolved (response, token, u) =>
      ({| user := u;
          loading := false;
          error := None;
          auth_token := Some (ToString number_toString token) |},
       Resolved response)
  | Rejected m =>
      ({| user := st.(user);
          loading := false;
          error := Some (message_or m fallback);
          auth_token := st.(auth_token) |},
       Rejected m)
  end.

Definition login (data : Value) (st : State) : State * Promise Value :=
  sign_in (UserService.login NODE_ENV apiClient env data) "Login failed" st.

Definition register (data : Value) (st : State) : State * Promise Value :=
  sign_in (UserService.register NODE_ENV apiClient env data) "Registration failed" st.

Definition updateProfile (data : Value) (st : State) : State * Promise Value :=
  match UserService.updateProfile NODE_ENV apiClient env data with
  | Resolved updatedUser =>
      ({| user := updatedUser;
          loading := false;
          error := None;
          auth_token := st.(auth_token) |},
       Resolved updatedUser)
  | Rejected m =>
      ({| user := st.(user);
          loading := false;
          error := Some (message_or m "Failed to update profile");
          auth_token := st.(auth_token) |},
       Rejected m)
  end.

End WithService.

End UseAuth.

(* ================================================================= *)
(** ** hooks/useBattles.ts: the fetch functions and their state *)

Module FetchState.

(** [battles] (or [battle]), [loading] and [error] of a hook. *)
Record State := {
  battles : Value;
  loading : bool;
  error : option string
}.

(** [useState([])], [useState(true)], [useState(null)] *)
Definition initial : State :=
  {| battles := VArr []; loading := true; error := None |}.

(** [useBattle] starts from [null]. *)
Definition initial_battle : State :=
  {| battles := VNull; loading := true; error := None |}.

(** The body shared by the six fetch functions: try, catch, finally. *)
Definition settle (fallback : string) (result : Promise Value) (st : State) : State :=
  match result with
  | Resolved data => {| battles := data; loading := false; error := None |}
  | Rejected m =>
      {| battles := st.(battles);
         loading := false;
         error := Some (UseAuth.message_or m fallback) |}
  end.

Section WithService.
Variable NODE_ENV : string.
Variable apiClient : Client.
Variable env : MockApiClient.Env.

Definition fetchBattles (filters : Value) : State -> State :=
  settle "Failed to fetch battles"
         (BattleService.getBattles NODE_ENV apiClient env filters).

Definition fetchBattle (i : string) : State -> State :=
  settle "Failed to fetch battle"
         (BattleService.getBattle NODE_ENV apiClient env i).

Definition fetchTrending : State -> State :=
  settle "Failed to fetch trending battles"
         (BattleService.getTrendingBattles NODE_ENV apiClient env).

Definition fetchPersonalized : State -> State :=
  settle "Failed to fetch personalized battles"
         (BattleService.getPersonalizedBattles NODE_ENV apiClient env).

Definition fetchQuickPicks : State -> State :=
  settle "Failed to fetch quick picks battles"
         (BattleService.getQuickPicksBattles NODE_ENV apiClient env).

Definition fetchCategoryBattles (c : string) : State -> State :=
  settle "Failed to fetch category battles"
         (BattleService.getBattlesByCategory NODE_ENV apiClient env c).

(** What a fetch closure of the polling model does to the state. *)
Definition run (f : UseBattles.Fetch) : State -> State :=
  match f with
  | UseBattles.fetchBattles filters => fetchBattles filters
  | UseBattles.fetchBattle i => fetchBattle i
  | UseBattles.fetchTrending => fetchTrending
  | UseBattles.fetchPersonalized => fetchPersonalized
  | UseBattles.fetchQuickPicks => fetchQuickPicks
  | UseBattles.fetchCategoryBattles c => fetchCategoryBattles c
  end.

(** The service call behind a fetch closure. *)
Definition service_call (f : UseBattles.Fetch) : Promise Value :=
  match f with
  | UseBattles.fetchBattles filters =>
      BattleService.getBattles NODE_ENV apiClient env filters
  | UseBattles.fetchBattle i => BattleService.getBattle NODE_ENV apiClient env i
  | UseBattles.fetchTrending => BattleService.getTrendingBattles NODE_ENV apiClient env
  | UseBattles.fetchPersonalized =>
      BattleService.getPersonalizedBattles NODE_ENV apiClient env
  | UseBattles.fetchQuickPicks =>
      BattleService.getQuickPicksBattles NODE_ENV apiClient env
  | UseBattles.fetchCategoryBattles c =>
      BattleService.getBattlesByCategory NODE_ENV apiClient env c
  end.

End WithService.

(** The message a fetch closure falls back to. *)
Definition fallback_of (f : UseBattles.Fetch) : string :=
  match f with
  | UseBattles.fetchBattles _ => "Failed to fetch battles"
  | UseBattles.fetchBattle _ => "Failed to fetch battle"
  | UseBattles.fetchTrending => "Failed to fetch trending battles"
  | UseBattles.fetchPersonalized => "Failed to fetch personalized battles"
  | UseBattles.fetchQuickPicks => "Failed to fetch quick picks battles"
  | UseBattles.fetchCategoryBattles _ => "Failed to fetch category battles"
  end.

End FetchState.

(* ================================================================= *)
(** ** components/sections/PersonalizedSection.tsx *)

Module PersonalizedSection.

(** [v.length] *)
Definition length_of (v : Value) : Value :=
  match v with
  | VArr items => VNum (number_of_nat (List.length items))
  | VStr s => VNum (number_of_nat (String.length s))
  | _ => get_field v "length"
  end.

(** [v?.length] *)
Definition length_opt (v : Value) : Value :=
  match v with
  | VUndefined | VNull => VUndefined
  | _ => length_of v
  end.

(** What rendering the section comes to: one of its four views, or the
    TypeError thrown while the cards are built. *)
Inductive View :=
| Skeleton
| LoadError
| NoBattles
| Cards (battles : Value)
| RenderError.

Definition nullish (v : Value) : bool :=
  match v with
  | VUndefined | VNull => true
  | _ => false
  end.

(** [battles.map((battle) => <BattleCard key={battle.id} ... />)]: only
    an array has [map], and [battle.id] throws on [null] and
    [undefined]. *)
Definition cards (battles : Value) : View :=
  match battles with
  | VArr items => if existsb nullish items then RenderError else Cards battles
  | _ => RenderError
  end.

Definition error_truthy (e : option string) : bool :=
  match e with
  | Some m => negb (String.eqb m "")
  | None => false
  end.

Definition render (st : FetchState.State) : View :=
  if st.(FetchState.loading) then Skeleton
  else if error_truthy st.(FetchState.error) then LoadError
  else if negb (truthy (length_opt st.(FetchState.battles))) then NoBattles
  else cards st.(FetchState.battles).

End PersonalizedSection.

(* ================================================================= *)
(** ** CreateBattleModal: the element buttons and the schema's bounds *)

Module CreateBattleModal.

Record FormElement := {
  element_name : string;
  element_media_type : MediaType
}.

(** The bounds of [elements] in [CreateBattleSchema]:
    [z.array(...).min(2).max(10)]. *)
Definition elements_count_ok (l : list FormElement) : bool :=
  (2 <=? List.length l)%nat && (List.length l <=? 10)%nat.

Definition blank : FormElement :=
  {| element_name := ""; element_media_type := text |}.

(** [defaultValues.elements] *)
Definition defaultElements : list FormElement := [blank; blank].

Definition addElement (currentElements : list FormElement) : list FormElement :=
  if (List.length currentElements <? 10)%nat
  then (currentElements ++ [blank])%list
  else currentElements.

(** [arr.filter((_, i) => i !== index)], from position [i] on. *)
Fixpoint filter_index {A} (index : Z) (i : nat) (l : list A) : list A :=
  match l with
  | [] => []
  | x :: rest =>
      if Z.eqb (Z.of_nat i) index then filter_index index (S i) rest
      else x :: filter_index index (S i) rest
  end.

Definition removeElement (index : Z) (currentElements : list FormElement)
  : list FormElement :=
  if (2 <? List.length currentElements)%nat
  then filter_index index 0 currentElements
  else currentElements.

(** A click on one of the two kinds of buttons. *)
Inductive Click :=
| ClickAdd
| ClickRemove (index : Z).

Definition click (l : list FormElement) (c : Click) : list FormElement :=
  match c with
  | ClickAdd => addElement l
  | ClickRemove index => removeElement index l
  end.

End CreateBattleModal.

(* ================================================================= *)
(** ** UserProfilePage: the follow button *)

Module UserProfilePage.

Record ProfileUser := {
  profile_id : string;
  profile_username : string;
  profile_email : string;
  profile_bio : string;
  battlesCount : Z;
  followersCount : Z;
  followingCount : Z;
  totalVotesReceived : Z;
  createdAt : string
}.

Record State := {
  user : option ProfileUser;
  isFollowing : bool
}.

(** [{ ...user, followersCount: n }] *)
Definition with_followersCount (u : ProfileUser) (n : Z) : ProfileUser :=
  {| profile_id := u.(profile_id);
     profile_username := u.(profile_username);
     profile_email := u.(profile_email);
     profile_bio := u.(profile_bio);
     battlesCount := u.(battlesCount);
     followersCount := n;
     followingCount := u.(followingCount);
     totalVotesReceived := u.(totalVotesReceived);
     createdAt := u.(createdAt) |}.

Definition handleFollow (st : State) : State :=
  {| user :=
       match st.(user) with
       | Some u =>
           Some (with_followersCount u
                   (if st.(isFollowing)
                    then u.(followersCount) - 1
                    else u.(followersCount) + 1)%Z)
       | None => None
       end;
     isFollowing := negb st.(isFollowing) |}.

End UserProfilePage.

(* ================================================================= *)
(** ** Strings *)

Section StringFacts.

Lemma startsWith_app (p s : string) : startsWith (p ++ s) p = true.
Proof.
  induction p as [|c p IH]; simpl.
  - reflexivity.
  - now rewrite Ascii.eqb_refl, IH.
Qed.

Lemma includes_prefix (p s : string) : includes (p ++ s) p = true.
Proof.
  destruct p as [|c p]; simpl.
  - destruct s; reflexivity.
  - now rewrite Ascii.eqb_refl, startsWith_app.
Qed.

Lemma includes_battles_url (i rest : string) :
  includes ("/battles/" ++ i ++ rest) "/battles/" = true.
Proof. apply includes_prefix. Qed.

End StringFacts.

(* ================================================================= *)
(** ** Mock data: the indices of mocks/data.ts *)

Section MockData.
Import Data.

Lemma mockUsers_0 : nth_error mockUsers 0 = Some user_testuser.
Proof. reflexivity. Qed.

Lemma mockTrendingBattles_indices :
  map Some mockTrendingBattles
  = map (nth_error mockBattles) [2; 0; 4; 1; 3]%nat.
Proof. reflexivity. Qed.

Lemma mockPersonalizedBattles_indices :
  map Some mockPersonalizedBattles
  = map (nth_error mockBattles) [0; 2; 4]%nat.
Proof. reflexivity. Qed.

Lemma mockQuickPicksBattles_indices :
  map Some mockQuickPicksBattles
  = map (nth_error mockBattles) [3; 1; 0]%nat.
Proof. reflexivity. Qed.

End MockData.

(* ================================================================= *)
(** ** The mock client's routing *)

Section Routing.
Import MockApiClient Envelope.

Lemma battles_list_condition_value (url : string) :
  battles_list_condition url
  = if includes url "/battles/" then VStr "false/" else VBool false.
Proof.
  unfold battles_list_condition, and_, add_bool_string.
  destruct (includes url "/battles/"); reflexivity.
Qed.

Lemma battles_list_condition_truthy (url : string) :
  truthy (battles_list_condition url) = includes url "/battles/".
Proof.
  rewrite battles_list_condition_value.
  destruct (includes url "/battles/"); reflexivity.
Qed.

Lemma battles_list_branch_resolves (config : Value) :
  exists battles,
    battles_list_branch config = Resolved (VObj [("data", list_envelope battles)]).
Proof.
  unfold battles_list_branch. eexists. reflexivity.
Qed.

Lemma battles_list_branch_no_params :
  battles_list_branch VUndefined
  = Resolved (VObj [("data", list_envelope Data.mockBattles)]).
Proof. reflexivity. Qed.

Lemma get_battles_url (url : string) (config : Value) :
  includes url "/battles/" = true ->
  get url config = battles_list_branch config.
Proof.
  intros H. unfold get, delay, bind.
  now rewrite battles_list_condition_truthy, H.
Qed.

Lemma get_other_url (url : string) (config : Value) :
  includes url "/battles/" = false ->
  get url config
  = if truthy (users_list_condition url) then ok_data (VArr (map VUser Data.mockUsers))
    else if includes url "/users/" && (2 <? List.length (split "/" url))%nat
    then single_user_branch url
    else if includes url "/trending/"
    then ok_data (battles_value Data.mockTrendingBattles)
    else if includes url "/personalized/"
    then ok_data (battles_value Data.mockPersonalizedBattles)
    else if includes url "/quick-picks/"
    then ok_data (battles_value Data.mockQuickPicksBattles)
    else ok_data (VArr []).
Proof.
  intros H. unfold get, delay, bind.
  now rewrite battles_list_condition_truthy, H.
Qed.

Lemma single_user_branch_message (url : string) :
  single_user_branch url <> Rejected "Battle not found".
Proof.
  unfold single_user_branch.
  destruct (pop (split "/" url)) as [u|]; [|discriminate].
  destruct (Data.getMockUserByUsername u); discriminate.
Qed.

Lemma get_never_battle_not_found (url : string) (config : Value) :
  get url config <> Rejected "Battle not found".
Proof.
  destruct (includes url "/battles/") eqn:E.
  - rewrite get_battles_url by exact E.
    destruct (battles_list_branch_resolves config) as [b ->]. discriminate.
  - rewrite get_other_url by exact E. unfold ok_data.
    repeat match goal with
           | |- context [if ?c then _ else _] => destruct c
           end;
      try discriminate; apply single_user_branch_message.
Qed.

Lemma post_resolves (env : Env) (url : string) (data : Value) :
  exists v, post env url data = Resolved v.
Proof.
  unfold post, delay, bind, login_response, ok_data, ok_message.
  repeat match goal with
         | |- context [if ?c then _ else _] => destruct c
         end; eexists; reflexivity.
Qed.

End Routing.

(* ================================================================= *)
(** ** Lists checked pair by pair *)

Section Pairwise.
Variable A : Type.
Variable R : A -> A -> bool.

Lemma pairwise_nth (l : list A) :
  pairwise R l = true ->
  forall i j a b,
    nth_error l i = Some a -> nth_error l j = Some b -> (i < j)%nat ->
    R a b = true.
Proof.
  induction l as [|x l IH]; intros Hp i j a b Hi Hj Hlt.
  - destruct i; discriminate.
  - simpl in Hp. apply andb_true_iff in Hp as [Hx Hl].
    destruct j as [|j]; [lia|]. simpl in Hj.
    destruct i as [|i]; simpl in Hi.
    + injection Hi as <-.
      rewrite forallb_forall in Hx. apply Hx.
      eapply nth_error_In; eassumption.
    + apply (IH Hl i j); auto. lia.
Qed.

End Pairwise.

(* ================================================================= *)
(** ** The services in development mode *)

Section Development.
Import MockApiClient Envelope BattleService.
Variable apiClient : Client.
Variable env : Env.

Lemma dev_client : client "development" apiClient env = mockApiClient env.
Proof. reflexivity. Qed.

Lemma dev_getBattles (filters : Value) :
  exists battles,
    getBattles "development" apiClient env filters
    = Resolved (list_envelope battles).
Proof.
  unfold getBattles. rewrite dev_client. cbn [client_get mockApiClient].
  rewrite get_battles_url by reflexivity.
  destruct (battles_list_branch_resolves (VObj [("params", filters)])) as [b ->].
  exists b. reflexivity.
Qed.

Lemma dev_getBattle (i : string) :
  getBattle "development" apiClient env i
  = Resolved (list_envelope Data.mockBattles).
Proof.
  unfold getBattle. rewrite dev_client. cbn [client_get mockApiClient].
  rewrite get_battles_url by apply includes_battles_url.
  reflexivity.
Qed.

Lemma dev_getTrendingBattles :
  getTrendingBattles "development" apiClient env
  = Resolved (data_envelope (battles_value Data.mockTrendingBattles)).
Proof. reflexivity. Qed.

Lemma dev_getPersonalizedBattles :
  getPersonalizedBattles "development" apiClient env
  = Resolved (data_envelope (battles_value Data.mockPersonalizedBattles)).
Proof. reflexivity. Qed.

Lemma dev_getQuickPicksBattles :
  getQuickPicksBattles "development" apiClient env
  = Resolved (data_envelope (battles_value Data.mockQuickPicksBattles)).
Proof. reflexivity. Qed.

Lemma dev_voteBattle_resolves (data : VoteRequest) :
  voteBattle "development" apiClient env data = Resolved tt.
Proof.
  unfold voteBattle. rewrite dev_client. cbn [client_post mockApiClient].
  destruct (post_resolves env ("/battles/" ++ data.(battle_id) ++ "/vote/")
              (vote_request_value data)) as [v ->].
  reflexivity.
Qed.

End Development.

Section ReturnedBattles.
Import MockApiClient Envelope Ranking.

Lemma battles_of_value (l : list Battle) :
  flat_map battle_of (map VBattle l) = l.
Proof. induction l as [|b l IH]; simpl; congruence. Qed.

Lemma returned_battles_data (l : list Battle) :
  returned_battles (Resolved (data_envelope (battles_value l))) = l.
Proof. apply battles_of_value. Qed.

Lemma returned_battles_list (l : list Battle) :
  returned_battles (Resolved (list_envelope l)) = l.
Proof. apply battles_of_value. Qed.

End ReturnedBattles.

(* ================================================================= *)
(** ** Response envelopes (C9) and the single-battle route (C10) *)

Module EnvelopeProperties.
Import MockApiClient Envelope BattleService.

Example getBattles_bare_array :
  resolves_to_array
    (getBattles "production" bare_array_client Voting.env0 VUndefined) = true.
Proof. reflexivity. Qed.

Example envelope_fields :
  has_field (list_envelope Data.mockBattles) "meta" = true
  /\ has_field (data_envelope (battles_value Data.mockTrendingBattles)) "meta"
     = false.
Proof. split; reflexivity. Qed.

Example single_battle_branch_existing :
  single_battle_branch "/battles/3" = ok_data (VBattle Data.battle_netflix).
Proof. reflexivity. Qed.

Example single_battle_branch_missing :
  single_battle_branch "/battles/999" = Rejected "Battle not found".
Proof. reflexivity. Qed.

(** C9. In development mode every call of [getBattles] and of
    [getTrendingBattles] resolves to the envelope of the mock client's
    response, [response.data], an object and never an array.  For
    [getBattles] that is the envelope of the battles-list branch, with
    the fields success, data and meta, whose data is the list the
    branch selected for the filters; for [getTrendingBattles] it is the
    envelope of the '/trending/' branch, with the fields success and
    data only (no meta), whose data is [mockTrendingBattles]. *)
Theorem dev_lists_resolve_to_envelope :
  forall (apiClient : Client) (env : Env) (filters : Value),
    get "/battles/" (VObj [("params", filters)])
    = Resolved
        (VObj [("data", list_envelope (selected_battles (params_of filters)))])
    /\ getBattles "development" apiClient env filters
       = Resolved (list_envelope (selected_battles (params_of filters)))
    /\ resolves_to_array (getBattles "development" apiClient env filters) = false
    /\ get_field (list_envelope (selected_battles (params_of filters))) "success"
       = VBool true
    /\ get_field (list_envelope (selected_battles (params_of filters))) "data"
       = battles_value (selected_battles (params_of filters))
    /\ has_field (list_envelope (selected_battles (params_of filters))) "meta"
       = true
    /\ get "/trending/" VUndefined
       = Resolved
           (VObj [("data", data_envelope (battles_value Data.mockTrendingBattles))])
    /\ getTrendingBattles "development" apiClient env
       = Resolved (data_envelope (battles_value Data.mockTrendingBattles))
    /\ resolves_to_array (getTrendingBattles "development" apiClient env) = false
    /\ get_field (data_envelope (battles_value Data.mockTrendingBattles)) "success"
       = VBool true
    /\ get_field (data_envelope (battles_value Data.mockTrendingBattles)) "data"
       = battles_value Data.mockTrendingBattles
    /\ has_field (data_envelope (battles_value Data.mockTrendingBattles)) "meta"
       = false.
Proof.
  intros apiClient env filters.
  assert (Hget : get "/battles/" (VObj [("params", filters)])
                 = Resolved
                     (VObj [("data",
                             list_envelope (selected_battles (params_of filters)))])).
  { rewrite get_battles_url by reflexivity. reflexivity. }
  assert (Hsvc : getBattles "development" apiClient env filters
                 = Resolved (list_envelope (selected_battles (params_of filters)))).
  { unfold getBattles. rewrite dev_client. cbn [client_get mockApiClient].
    rewrite Hget. reflexivity. }
  split; [exact Hget|]. split; [exact Hsvc|].
  split; [rewrite Hsvc; reflexivity|].
  repeat (split; [reflexivity|]). reflexivity.
Qed.

(** C10. In development mode [getBattle(id)] never throws
    'Battle not found', whatever the id: the first routing condition
    of the mock client evaluates to the non-empty string "false/" on
    every URL that contains '/battles/', so the battles-list branch
    answers (with all mock battles), the path condition of the
    single-battle branch is unsatisfiable and no URL at all makes
    [get] throw that error. *)
Theorem getBattle_never_not_found :
  forall (apiClient : Client) (env : Env) (i : string),
    battles_list_condition ("/battles/" ++ i ++ "/") = VStr "false/"
    /\ truthy (battles_list_condition ("/battles/" ++ i ++ "/")) = true
    /\ getBattle "development" apiClient env i
       = Resolved (list_envelope Data.mockBattles)
    /\ getBattle "development" apiClient env i <> Rejected "Battle not found"
    /\ (forall url : string,
           truthy (battles_list_condition url) = includes url "/battles/")
    /\ (forall url : string,
           negb (truthy (battles_list_condition url))
           && (includes url "/battles/" && (2 <? List.length (split "/" url))%nat)
           = false)
    /\ (forall (url : string) (config : Value),
           get url config <> Rejected "Battle not found").
Proof.
  intros apiClient env i.
  assert (Hurl : includes ("/battles/" ++ i ++ "/") "/battles/" = true)
    by apply includes_battles_url.
  split; [|split; [|split; [|split; [|split; [|split]]]]].
  - rewrite battles_list_condition_value. now rewrite Hurl.
  - now rewrite battles_list_condition_truthy.
  - apply dev_getBattle.
  - rewrite dev_getBattle. discriminate.
  - apply battles_list_condition_truthy.
  - intros url. rewrite battles_list_condition_truthy.
    destruct (includes url "/battles/"); reflexivity.
  - apply get_never_battle_not_found.
Qed.

End EnvelopeProperties.

(* ================================================================= *)
(** ** Five-minute polling (C8) *)

Module Polling.
Import UseBattles.
Local Open Scope Z_scope.

Lemma effect_guarded (h : Hook) (rt : Runtime) :
  effect h rt = if guard h then poll (fetch_of h) rt else (rt, None).
Proof. destruct h; reflexivity. Qed.

Lemma clearInterval_fresh (rt : Runtime) (i : Interval) :
  handles_fresh rt ->
  i.(handle) = rt.(next_handle) ->
  filter (fun k => negb (Nat.eqb k.(handle) i.(handle)))
         (rt.(intervals) ++ [i])%list
  = rt.(intervals).
Proof.
  unfold handles_fresh. intros Hfresh E.
  rewrite filter_app. simpl. rewrite Nat.eqb_refl. simpl. rewrite app_nil_r.
  rewrite E. clear E.
  induction Hfresh as [|k l Hk _ IH]; simpl.
  - reflexivity.
  - destruct (Nat.eqb_spec k.(handle) rt.(next_handle)) as [E|_]; [lia|].
    simpl. now rewrite IH.
Qed.

(** C8. Each of the six battle-fetching hooks, whenever its effect
    body runs (always for useBattles, useTrendingBattles,
    usePersonalizedBattles and useQuickPicksBattles; for a non-empty id
    or category for useBattle and useBattlesByCategory), fetches once
    and registers exactly one interval: its own fetch function, every
    5 * 60 * 1000 = 300000 milliseconds, which is the five-minute tick;
    so within [elapsed] milliseconds the fetch is repeated
    elapsed / 300000 times.  The cleanup the effect returns clears that
    interval and nothing else.  When the guard fails nothing is fetched
    or scheduled. *)
Theorem hooks_poll_every_five_minutes :
  forall (h : Hook) (rt : Runtime),
    handles_fresh rt ->
    let rt' := fst (effect h rt) in
    let cleanup := snd (effect h rt) in
    if guard h then
      rt'.(intervals) = (rt.(intervals) ++ [polling_interval h rt])%list
      /\ (polling_interval h rt).(delay_ms) = 300000
      /\ (polling_interval h rt).(delay_ms) = minutes_to_ms tick_minutes
      /\ rt'.(fetched) = (rt.(fetched) ++ [fetch_of h])%list
      /\ (forall elapsed : Z,
             (advance elapsed rt').(fetched)
             = ((advance elapsed (call (fetch_of h) rt)).(fetched)
                ++ repeat (fetch_of h) (Z.to_nat (elapsed / 300000)))%list)
      /\ cleanup <> None
      /\ (run_cleanup cleanup rt').(intervals) = rt.(intervals)
      /\ (forall elapsed : Z,
             (advance elapsed (run_cleanup cleanup rt')).(fetched)
             = (advance elapsed (call (fetch_of h) rt)).(fetched))
    else
      rt' = rt /\ cleanup = None.
Proof.
  intros h rt Hfresh rt' cleanup. subst rt' cleanup.
  rewrite effect_guarded. destruct (guard h); [|split; reflexivity].
  cbn [poll setInterval call fst snd intervals next_handle fetched run_cleanup].
  assert (Hclear :
    filter (fun k => negb (Nat.eqb k.(handle) rt.(next_handle)))
           (rt.(intervals) ++ [polling_interval h rt])%list = rt.(intervals))
    by (apply (clearInterval_fresh (polling_interval h rt) Hfresh); reflexivity).
  split; [reflexivity|]. split; [reflexivity|]. split; [reflexivity|].
  split; [reflexivity|]. split.
  { intros elapsed. unfold advance. cbn [fetched intervals].
    rewrite flat_map_app. cbn [flat_map]. rewrite app_nil_r.
    now rewrite !app_assoc. }
  split; [discriminate|]. split.
  { unfold clearInterval. cbn [intervals]. exact Hclear. }
  intros elapsed. unfold advance, clearInterval. cbn [fetched intervals].
  fold (polling_interval h rt). now rewrite Hclear.
Qed.

Lemma hooks_poll_every_five_minutes_witness :
  handles_fresh initial
  /\ (fst (effect useTrendingBattles initial)).(intervals)
     = [{| handle := 1; callback := fetchTrending; delay_ms := 300000 |}]
  /\ (run_cleanup (snd (effect useTrendingBattles initial))
        (fst (effect useTrendingBattles initial))).(intervals) = [].
Proof.
  assert (H : handles_fresh initial) by constructor.
  pose proof (hooks_poll_every_five_minutes useTrendingBattles H) as T.
  split; [exact H|].
  split; [exact (proj1 T)|].
  exact (proj1 (proj2 (proj2 (proj2 (proj2 (proj2 (proj2 T))))))).
Defined.

Example useBattle_without_id :
  effect (useBattle "") initial = (initial, None).
Proof. reflexivity. Qed.

Example useTrendingBattles_quarter_hour :
  (advance (15 * 60 * 1000) (fst (effect useTrendingBattles initial))).(fetched)
  = [fetchTrending; fetchTrending; fetchTrending; fetchTrending].
Proof. reflexivity. Qed.

End Polling.

(* ================================================================= *)
(** ** Vote validation of plan.md *)

Section ValidateVoteFacts.
Import Plan.
Variable Request : Type.
Variable get_client_ip : Request -> string.
Variable generate_fingerprint : Request -> string.

Lemma key_eqb_eq (k1 k2 : string * string * string) :
  key_eqb k1 k2 = true <-> k1 = k2.
Proof.
  destruct k1 as [[b1 i1] f1], k2 as [[b2 i2] f2]. unfold key_eqb.
  rewrite !andb_true_iff, !String.eqb_eq.
  split; [intros [[-> ->] ->]; reflexivity | intros [= -> -> ->]; auto].
Qed.

Lemma existing_vote_iff (table : list Vote) (k : string * string * string) :
  existsb (fun v => key_eqb (key v) k) table = true <-> In k (map key table).
Proof.
  rewrite existsb_exists, in_map_iff. split.
  - intros [v [Hin Hk]]. apply key_eqb_eq in Hk. eauto.
  - intros [v [Hk Hin]]. exists v. split; [exact Hin|]. now apply key_eqb_eq.
Qed.

(** [validate_vote] raises exactly when the table holds a vote of the
    same battle, address and fingerprint; the element plays no part. *)
Lemma validate_vote_raises (table : list Vote) (battle element : string)
      (request : Request) :
  validate_vote get_client_ip generate_fingerprint table battle element request
  = Raise "You've already voted!"
  <-> In (battle, get_client_ip request, generate_fingerprint request)
         (map key table).
Proof.
  unfold validate_vote. rewrite <- existing_vote_iff.
  destruct (existsb _ table); split; intros H; try reflexivity; discriminate.
Qed.

Lemma validate_vote_returns (table : list Vote) (battle element : string)
      (request : Request) :
  validate_vote get_client_ip generate_fingerprint table battle element request
  = Return true
  <-> ~ In (battle, get_client_ip request, generate_fingerprint request)
           (map key table).
Proof.
  rewrite <- validate_vote_raises with (element := element).
  unfold validate_vote.
  destruct (existsb _ table); split; intros H;
    try reflexivity; try discriminate; try congruence.
Qed.

Lemma unique_append (table : list Vote) (row : Vote) :
  unique table -> ~ In (key row) (map key table) -> unique (table ++ [row]).
Proof.
  unfold unique. intros Hu Hn. rewrite map_app. simpl.
  induction (map key table) as [|k l IH]; simpl.
  - constructor; [intros []|constructor].
  - inversion Hu as [|? ? Hk Hl]; subst. constructor.
    + rewrite in_app_iff. intros [H|[H|[]]]; [now apply Hk|].
      apply Hn. left. congruence.
    + apply IH; [exact Hl|]. intros H. apply Hn. now right.
Qed.

End ValidateVoteFacts.

(* ================================================================= *)
(** ** Vote submission (C1, C2, C5) *)

Module VoteProperties.
Import Voting.

Lemma submit_all_resolved (apiClient : Client) (env : MockApiClient.Env)
      (attempts : list Attempt) :
  submit_all apiClient env attempts = map (fun _ => Resolved tt) attempts.
Proof.
  unfold submit_all, dev_voteBattle. apply map_ext.
  intros a. apply dev_voteBattle_resolves.
Qed.

(** C1, as stated, fails on the mock client: the second vote of the
    same identity for the same battle is accepted too. *)
Lemma duplicate_accepted_by_mock :
  ~ duplicate_rejected (dev_voteBattle offline env0)
      (vote "1" "1" "203.0.113.7" "f1e2d3")
      (vote "1" "2" "203.0.113.7" "f1e2d3").
Proof.
  intros H. destruct H as [_ H]; [repeat split|].
  vm_compute in H. discriminate.
Qed.

(** C1, amended. The frontend's development client accepts both of two
    votes of one identity for one battle.  Rejecting the duplicate is
    the work of [validate_vote] (plan.md) over the votes table: it
    raises "You've already voted!" exactly when the table holds a row
    with the battle, the address and the fingerprint of the request,
    whatever element is named, and returns True otherwise.  So when the
    first vote of an identity passed the validation and a row with its
    battle, address and fingerprint has been stored, a second vote of
    the same identity for that battle is rejected whichever element it
    names, and the table with the new row still satisfies
    UNIQUE(battle_id, voter_ip, fingerprint). *)
Theorem duplicate_votes_mock_and_validation :
  forall (apiClient : Client) (env : MockApiClient.Env) (d1 d2 : VoteRequest)
         (Request : Type) (get_client_ip generate_fingerprint : Request -> string)
         (request1 request2 : Request) (table : list Plan.Vote) (row : Plan.Vote),
    same_identity d1 d2 ->
    d1.(voter_ip) = Some (get_client_ip request1) ->
    d1.(fingerprint) = Some (generate_fingerprint request1) ->
    d2.(voter_ip) = Some (get_client_ip request2) ->
    d2.(fingerprint) = Some (generate_fingerprint request2) ->
    Plan.unique table ->
    Plan.validate_vote get_client_ip generate_fingerprint table
      d1.(battle_id) d1.(element_id) request1 = Plan.Return true ->
    Plan.key row
    = (d1.(battle_id), get_client_ip request1, generate_fingerprint request1) ->
    dev_voteBattle apiClient env d1 = Resolved tt
    /\ dev_voteBattle apiClient env d2 = Resolved tt
    /\ (forall (t : list Plan.Vote) (battle element : string) (request : Request),
           Plan.validate_vote get_client_ip generate_fingerprint t
             battle element request
           = Plan.Raise "You've already voted!"
           <-> exists v,
                 In v t
                 /\ v.(Plan.battle_id) = battle
                 /\ v.(Plan.voter_ip) = get_client_ip request
                 /\ v.(Plan.fingerprint) = generate_fingerprint request)
    /\ (forall (t : list Plan.Vote) (battle element : string) (request : Request),
           Plan.validate_vote get_client_ip generate_fingerprint t
             battle element request
           = Plan.Return true
           <-> ~ exists v,
                   In v t
                   /\ v.(Plan.battle_id) = battle
                   /\ v.(Plan.voter_ip) = get_client_ip request
                   /\ v.(Plan.fingerprint) = generate_fingerprint request)
    /\ Plan.validate_vote get_client_ip generate_fingerprint (table ++ [row])
         d2.(battle_id) d2.(element_id) request2
       = Plan.Raise "You've already voted!"
    /\ Plan.unique (table ++ [row]).
Proof.
  intros apiClient env d1 d2 Request ip fp request1 request2 table row
         [Hb [Hip Hfp]] Hip1 Hfp1 Hip2 Hfp2 Hu Hv Hrow.
  assert (Hkey : forall (t : list Plan.Vote) (battle : string) (request : Request),
             In (battle, ip request, fp request) (map Plan.key t)
             <-> exists v,
                   In v t
                   /\ v.(Plan.battle_id) = battle
                   /\ v.(Plan.voter_ip) = ip request
                   /\ v.(Plan.fingerprint) = fp request).
  { intros t battle request. rewrite in_map_iff. unfold Plan.key. split.
    - intros [v [[= E1 E2 E3] Hin]]. exists v. auto.
    - intros [v [Hin [E1 [E2 E3]]]]. exists v. split; [congruence|exact Hin]. }
  split; [apply dev_voteBattle_resolves|].
  split; [apply dev_voteBattle_resolves|].
  split; [intros t battle element request;
          rewrite validate_vote_raises; apply Hkey|].
  split; [intros t battle element request;
          rewrite validate_vote_returns, Hkey; reflexivity|].
  split.
  - apply validate_vote_raises. rewrite map_app, in_app_iff.
    right. left. rewrite Hrow.
    rewrite Hip1 in Hip. rewrite Hip2 in Hip. injection Hip as Hip.
    rewrite Hfp1 in Hfp. rewrite Hfp2 in Hfp. injection Hfp as Hfp.
    congruence.
  - apply validate_vote_returns in Hv. apply unique_append; [exact Hu|].
    rewrite Hrow. exact Hv.
Qed.

Lemma duplicate_votes_mock_and_validation_witness :
  let d1 := vote "1" "1" "203.0.113.7" "f1e2d3" in
  let d2 := vote "1" "2" "203.0.113.7" "f1e2d3" in
  let earlier := {| Plan.battle_id := "1"; Plan.element_id := "2";
                    Plan.voter_ip := "203.0.113.7"; Plan.fingerprint := "a9b8c7";
                    Plan.session_id := None |} in
  let row := {| Plan.battle_id := "1"; Plan.element_id := "1";
                Plan.voter_ip := "203.0.113.7"; Plan.fingerprint := "f1e2d3";
                Plan.session_id := Some "s1" |} in
  dev_voteBattle offline env0 d1 = Resolved tt
  /\ dev_voteBattle offline env0 d2 = Resolved tt
  /\ Plan.validate_vote fst snd ([earlier] ++ [row])%list "1" "2"
       ("203.0.113.7", "f1e2d3")
     = Plan.Raise "You've already voted!"
  /\ Plan.unique ([earlier] ++ [row])%list.
Proof.
  intros d1 d2 earlier row.
  assert (Hu : Plan.unique [earlier]).
  { repeat constructor. simpl. tauto. }
  pose proof (@duplicate_votes_mock_and_validation offline env0 d1 d2
                (string * string) fst snd
                ("203.0.113.7", "f1e2d3") ("203.0.113.7", "f1e2d3")
                [earlier] row
                (conj eq_refl (conj eq_refl eq_refl))
                eq_refl eq_refl eq_refl eq_refl Hu eq_refl eq_refl) as T.
  split; [exact (proj1 T)|].
  split; [exact (proj1 (proj2 T))|].
  exact (proj2 (proj2 (proj2 (proj2 T)))).
Defined.

(** C7, as stated, fails on the mock client: of two identical attempts
    fired together both are accepted, neither is rejected. *)
Lemma concurrent_votes_both_accepted :
  ~ one_accepted_rest_rejected
      (submit_all offline env0
         (simultaneous 2 0 (vote "1" "1" "203.0.113.7" "f1e2d3"))).
Proof.
  intros [H _]. vm_compute in H. discriminate.
Qed.

(** C7, amended. The only vote path of the sources, the mock client's
    vote branch, reads and writes no state, so K identical attempts
    fired together are K independent calls: all K are accepted and none
    is rejected with DuplicateVote.  The outcome of the claim, one
    acceptance and K-1 rejections, is reached for K = 1 only. *)
Theorem concurrent_votes_on_mock :
  forall (apiClient : Client) (env : MockApiClient.Env)
         (K : nat) (t : Z) (d : VoteRequest),
    submit_all apiClient env (simultaneous K t d) = repeat (Resolved tt) K
    /\ List.length (filter accepted (submit_all apiClient env (simultaneous K t d)))
       = K
    /\ List.length (filter (@is_rejected unit)
                      (submit_all apiClient env (simultaneous K t d)))
       = 0%nat
    /\ (one_accepted_rest_rejected (submit_all apiClient env (simultaneous K t d))
        <-> K = 1%nat).
Proof.
  intros apiClient env K t d.
  assert (Hall : submit_all apiClient env (simultaneous K t d)
                 = repeat (Resolved tt) K).
  { rewrite submit_all_resolved. unfold simultaneous.
    clear. induction K as [|K IH]; [reflexivity|]. cbn. now rewrite IH. }
  assert (Hacc : List.length (filter accepted (repeat (@Resolved unit tt) K)) = K).
  { clear. induction K as [|K IH]; [reflexivity|].
    cbn. now rewrite IH. }
  assert (Hrej : List.length (filter (@is_rejected unit) (repeat (Resolved tt) K))
                 = 0%nat).
  { clear. induction K as [|K IH]; [reflexivity|]. cbn. exact IH. }
  rewrite Hall. split; [reflexivity|]. split; [exact Hacc|].
  split; [exact Hrej|].
  unfold one_accepted_rest_rejected. rewrite Hacc, Hrej, repeat_length.
  split; [intros [H _]; exact H | intros ->; split; reflexivity].
Qed.

(** C2, as stated, fails on the mock client: of N + 1 = 21 attempts
    from one address within one window of 60 s the 21st is accepted. *)
Lemma burst_not_rate_limited :
  List.length (burst (S N)) = S N
  /\ within_window (burst (S N))
  /\ ~ rate_limit_enforced (submit_all offline env0 (burst (S N))).
Proof.
  split; [reflexivity|]. split.
  - unfold within_window, burst, N, W. rewrite Forall_map, Forall_forall.
    intros k Hk. apply in_seq in Hk. cbn [at_ms]. lia.
  - intros [p [Hp Hr]]. rewrite submit_all_resolved in Hp.
    vm_compute in Hp. injection Hp as <-. discriminate.
Qed.

(** C2, amended. The frontend code keeps no count of vote attempts and
    reads no clock: in development mode every attempt of any sequence
    is accepted, whatever the times of the attempts, so the (N+1)th
    attempt within a window is accepted like one made after the window;
    none is rejected with RateLimited. *)
Theorem mock_has_no_rate_limit :
  forall (apiClient : Client) (env : MockApiClient.Env) (attempts : list Attempt),
    submit_all apiClient env attempts = map (fun _ => Resolved tt) attempts
    /\ Forall (fun p => accepted p = true) (submit_all apiClient env attempts)
    /\ List.length (filter accepted (submit_all apiClient env attempts))
       = List.length attempts.
Proof.
  intros apiClient env attempts. rewrite submit_all_resolved.
  split; [reflexivity|]. split.
  - rewrite Forall_map. apply Forall_forall. reflexivity.
  - induction attempts as [|a l IH]; simpl; congruence.
Qed.

(** C5, as stated, fails on the mock client: a vote for a battle that
    does not exist is accepted, and so is a vote for an element of
    another battle. *)
Lemma invalid_vote_accepted_by_mock :
  ~ invalid_vote_rejected (dev_voteBattle offline env0)
      (vote "999" "1" "203.0.113.7" "f1e2d3")
  /\ ~ invalid_vote_rejected (dev_voteBattle offline env0)
         (vote "1" "7" "203.0.113.7" "f1e2d3").
Proof.
  split; intros H; specialize (H eq_refl); vm_compute in H; discriminate.
Qed.

(** C5, amended. The frontend code checks neither the battle nor the
    element of a vote: in development mode [voteBattle] resolves for
    every battle_id and element_id, also for ids of no battle and for
    elements of another battle, and the voting hook reports success;
    no vote is rejected with BattleClosed or InvalidElement. *)
Theorem mock_accepts_any_battle_and_element :
  forall (apiClient : Client) (env : MockApiClient.Env) (d : VoteRequest),
    dev_voteBattle apiClient env d = Resolved tt
    /\ is_rejected (dev_voteBattle apiClient env d) = false
    /\ UseVoting.voteBattle (dev_voteBattle apiClient env) d
       = (UseVoting.toast_success "Vote submitted successfully!", Resolved tt).
Proof.
  intros apiClient env d. unfold UseVoting.voteBattle, dev_voteBattle.
  rewrite dev_voteBattle_resolves. repeat split.
Qed.

End VoteProperties.

(* ================================================================= *)
(** ** Ranked lists (C3, C6) *)

Module RankingProperties.
Import Ranking Voting BattleService Envelope MockApiClient.

Example iphone_before_tesla :
  nth_error Data.mockTrendingBattles 1 = Some Data.battle_iphone
  /\ nth_error Data.mockTrendingBattles 2 = Some Data.battle_tesla
  /\ Data.battle_iphone.(trending_score) < Data.battle_tesla.(trending_score).
Proof. repeat split. Qed.

(** The list the claim's order would give for the five mock battles. *)
Example mockBattles_by_score :
  pairwise ranks_before
    [Data.battle_netflix; Data.battle_tesla; Data.battle_iphone;
     Data.battle_cola; Data.battle_pizza] = true.
Proof. reflexivity. Qed.

(** C3, as stated, fails: in the trending list the service returns,
    iPhone vs Samsung (85.5) stands before Tesla vs BMW (88.9). *)
Lemma trending_not_ordered_by_score :
  ~ totally_ordered
      (returned_battles (getTrendingBattles "development" offline env0)).
Proof.
  intros H.
  specialize (H 2%nat 1%nat Data.battle_tesla Data.battle_iphone
                eq_refl eq_refl eq_refl).
  lia.
Qed.

Lemma dev_getBattlesByCategory (apiClient : Client) (env : Env) (c : string) :
  getBattlesByCategory "development" apiClient env c
  = Resolved (list_envelope (category_battles c)).
Proof.
  unfold getBattlesByCategory. rewrite dev_client.
  cbn [client_get mockApiClient].
  rewrite get_battles_url by reflexivity.
  unfold battles_list_branch, category_battles, Data.getMockBattlesByCategory.
  cbn [get_field_opt get_field lookup or_ and_ truthy String.eqb Ascii.eqb
       Bool.eqb strict_eq_string].
  destruct (String.eqb c ""); reflexivity.
Qed.

(** C3, amended. The client does not order by score, creation time or
    identifier: in development mode the list returned for a scope is
    the stored mock list in its stored order (mockTrendingBattles,
    mockPersonalizedBattles, mockQuickPicksBattles; for a category the
    battles of mockBattles of that category in the order of
    mockBattles), and asking twice, with whatever runtime values and
    fallback client, yields the identical list in the identical order. *)
Theorem ranked_lists_are_stored_lists :
  forall (apiClient apiClient' : Client) (env env' : Env) (c : string),
    returned_battles (getTrendingBattles "development" apiClient env)
    = Data.mockTrendingBattles
    /\ returned_battles (getPersonalizedBattles "development" apiClient env)
       = Data.mockPersonalizedBattles
    /\ returned_battles (getQuickPicksBattles "development" apiClient env)
       = Data.mockQuickPicksBattles
    /\ returned_battles (getBattlesByCategory "development" apiClient env c)
       = category_battles c
    /\ getTrendingBattles "development" apiClient env
       = getTrendingBattles "development" apiClient' env'
    /\ getPersonalizedBattles "development" apiClient env
       = getPersonalizedBattles "development" apiClient' env'
    /\ getQuickPicksBattles "development" apiClient env
       = getQuickPicksBattles "development" apiClient' env'
    /\ getBattlesByCategory "development" apiClient env c
       = getBattlesByCategory "development" apiClient' env' c.
Proof.
  intros apiClient apiClient' env env' c.
  rewrite !dev_getBattlesByCategory, returned_battles_list.
  repeat split.
Qed.

(** C6, as stated, fails on the quick-picks surface: Pizza vs Burger,
    already voted by the viewer, stands above iPhone vs Samsung, which
    is active and not yet voted. *)
Lemma quick_picks_voted_above_eligible :
  ~ needs_vote_ordered
      (returned_battles (getQuickPicksBattles "development" offline env0)).
Proof.
  intros H.
  specialize (H 0%nat 2%nat Data.battle_pizza Data.battle_iphone
                eq_refl eq_refl).
  assert (H' : eligible Data.battle_iphone = false)
    by (apply H; [lia | reflexivity]).
  discriminate H'.
Qed.

Lemma needs_vote_ordered_check (l : list Battle) :
  pairwise (fun a b => eligible a || negb (eligible b)) l = true ->
  needs_vote_ordered l.
Proof.
  intros Hp i j a b Hi Hj Hlt Ha.
  pose proof (@pairwise_nth _ _ l Hp i j a b Hi Hj Hlt) as H.
  cbv beta in H. rewrite Ha in H. simpl in H.
  now destruct (eligible b).
Qed.

Lemma inactive_below_eligible_check (l : list Battle) :
  forallb is_active l = true -> inactive_below_eligible l.
Proof.
  intros Hall i j a b Hi _ _ Ha.
  rewrite forallb_forall in Hall.
  rewrite (Hall a) in Ha by (eapply nth_error_In; eassumption).
  discriminate.
Qed.

(** C6, amended. On the personalized surface no inactive or
    already-voted battle stands above an eligible one (all three
    battles are active and not yet voted).  On the quick-picks surface
    no inactive battle stands above an eligible one (all three are
    active); already-voted battles are not kept below the eligible
    ones there. *)
Theorem needs_your_vote_surfaces :
  forall (apiClient : Client) (env : Env),
    needs_vote_ordered
      (returned_battles (getPersonalizedBattles "development" apiClient env))
    /\ inactive_below_eligible
         (returned_battles (getPersonalizedBattles "development" apiClient env))
    /\ inactive_below_eligible
         (returned_battles (getQuickPicksBattles "development" apiClient env))
    /\ forallb eligible
         (returned_battles (getPersonalizedBattles "development" apiClient env))
       = true
    /\ forallb is_active
         (returned_battles (getQuickPicksBattles "development" apiClient env))
       = true.
Proof.
  intros apiClient env.
  rewrite dev_getPersonalizedBattles, dev_getQuickPicksBattles.
  rewrite !returned_battles_data.
  split; [apply needs_vote_ordered_check; reflexivity|].
  split; [apply inactive_below_eligible_check; reflexivity|].
  split; [apply inactive_below_eligible_check; reflexivity|].
  split; reflexivity.
Qed.

End RankingProperties.

(* ================================================================= *)
(** ** More on the mock client's routing *)

Module RoutingProperties.
Import MockApiClient Envelope.

Lemma includes_app_r (p s sub : string) :
  includes s sub = true -> includes (p ++ s) sub = true.
Proof.
  intros H. induction p as [|c p IH]; simpl.
  - exact H.
  - rewrite IH. apply orb_true_r.
Qed.

Lemma users_list_condition_truthy (url : string) :
  truthy (users_list_condition url) = includes url "/users/".
Proof.
  unfold users_list_condition, and_, add_bool_string.
  destruct (includes url "/users/"); reflexivity.
Qed.

Lemma pop_last (A : Type) (pre : list A) (x : A) : pop (pre ++ [x]) = Some x.
Proof.
  induction pre as [|y pre IH]; [reflexivity|].
  simpl. destruct (pre ++ [x])%list eqn:E; [|exact IH].
  destruct pre; discriminate.
Qed.

Lemma split_trailing (sep : ascii) (s : string) :
  exists first rest,
    split sep (s ++ String sep EmptyString) = (first :: rest ++ [EmptyString])%list.
Proof.
  induction s as [|c s [first [rest IH]]]; simpl.
  - rewrite Ascii.eqb_refl. exists EmptyString, []. reflexivity.
  - rewrite IH. destruct (Ascii.eqb c sep).
    + exists EmptyString, (first :: rest). reflexivity.
    + exists (String c first), rest. reflexivity.
Qed.

Lemma pop_split_trailing (sep : ascii) (s : string) :
  pop (split sep (s ++ String sep EmptyString)) = Some EmptyString.
Proof.
  destruct (split_trailing sep s) as [first [rest ->]].
  apply (pop_last (first :: rest) EmptyString).
Qed.

(** X1. The mock [get] never throws: on every URL and every config it
    resolves to a response whose envelope has [success: true]; neither
    'Battle not found' nor 'User not found' can be reached. *)
Theorem mock_get_always_resolves :
  forall (url : string) (config : Value),
    exists response,
      get url config = Resolved response
      /\ get_field (get_field response "data") "success" = VBool true.
Proof.
  intros url config.
  destruct (includes url "/battles/") eqn:E.
  - rewrite get_battles_url by exact E.
    destruct (battles_list_branch_resolves config) as [b ->].
    eexists. split; reflexivity.
  - rewrite get_other_url by exact E.
    rewrite users_list_condition_truthy. unfold ok_data.
    destruct (includes url "/users/"); simpl.
    + eexists. split; reflexivity.
    + repeat match goal with
             | |- context [if ?c then _ else _] => destruct c
             end; eexists; split; reflexivity.
Qed.

(** X2. Behind a URL that ends in '/', as the services build them, the
    single-battle and single-user branches look the empty string up
    (the piece after the last '/'), so they reject with 'Battle not
    found' and 'User not found' whatever id or name the URL carries. *)
Theorem lookup_branches_trailing_slash :
  forall url : string,
    pop (split "/" (url ++ "/")) = Some ""
    /\ single_battle_branch (url ++ "/") = Rejected "Battle not found"
    /\ single_user_branch (url ++ "/") = Rejected "User not found".
Proof.
  intros url.
  pose proof (pop_split_trailing "/" url) as H.
  split; [exact H|].
  unfold single_battle_branch, single_user_branch.
  rewrite H. split; reflexivity.
Qed.

Lemma pages_small (n : nat) :
  (n <= 5)%nat ->
  Math_ceil (number_of_nat n / 20) = if Nat.eqb n 0 then 0%Z else 1%Z.
Proof.
  intros H.
  do 6 (destruct n as [|n]; [reflexivity|]). lia.
Qed.

Lemma filter_length_le (A : Type) (f : A -> bool) (l : list A) :
  (List.length (filter f l) <= List.length l)%nat.
Proof.
  induction l as [|a l IH]; simpl; [lia|]. destruct (f a); simpl; lia.
Qed.

Lemma battles_selection (config : Value) :
  exists battles,
    battles_list_branch config = Resolved (VObj [("data", list_envelope battles)])
    /\ incl battles Data.mockBattles
    /\ (List.length battles <= 5)%nat.
Proof.
  unfold battles_list_branch.
  eexists. split; [reflexivity|].
  repeat match goal with
         | |- context [if ?c then _ else _] => destruct c
         end;
    (split;
     [ first [ apply incl_filter | apply incl_refl
             | intros b Hb; simpl in Hb; simpl; tauto ]
     | first [ apply filter_length_le | simpl; lia ] ]).
Qed.

(** X3. Whatever filters are passed, the battles-list response of
    [getBattles] in development mode holds only battles of mockBattles,
    at most five of them, its pagination total is their number and its
    page count is 0 for an empty selection and 1 otherwise. *)
Theorem getBattles_selection_and_pagination :
  forall (apiClient : Client) (env : Env) (filters : Value),
    exists battles,
      BattleService.getBattles "development" apiClient env filters
      = Resolved (list_envelope battles)
      /\ incl battles Data.mockBattles
      /\ (List.length battles <= 5)%nat
      /\ get_field (get_field (get_field (list_envelope battles) "meta") "pagination")
                   "total"
         = VNum (number_of_nat (List.length battles))
      /\ get_field (get_field (get_field (list_envelope battles) "meta") "pagination")
                   "pages"
         = VNum (inject_Z (if Nat.eqb (List.length battles) 0 then 0 else 1)).
Proof.
  intros apiClient env filters.
  unfold BattleService.getBattles. rewrite dev_client.
  cbn [client_get BattleService.mockApiClient].
  rewrite get_battles_url by reflexivity.
  destruct (battles_selection (VObj [("params", filters)]))
    as [battles [-> [Hincl Hlen]]].
  exists battles. split; [reflexivity|].
  split; [exact Hincl|]. split; [exact Hlen|]. split; [reflexivity|].
  cbn [list_envelope get_field lookup String.eqb Ascii.eqb Bool.eqb].
  now rewrite (pages_small Hlen).
Qed.

End RoutingProperties.

(* ================================================================= *)
(** ** More on the services in development mode *)

Module ServiceProperties.
Import MockApiClient Envelope Ranking.

(** X4. The filters of the battles list take effect in a fixed order of
    precedence, the later assignment winning: quick_picks before
    personalized before trending before category; with none of them the
    response holds all of mockBattles. *)
Theorem getBattles_filter_precedence :
  forall (apiClient : Client) (env : Env) (filters : Value),
    returned_battles (BattleService.getBattles "development" apiClient env filters)
    = if truthy (get_field (params_of filters) "quick_picks")
      then Data.mockQuickPicksBattles
      else if truthy (get_field (params_of filters) "personalized")
      then Data.mockPersonalizedBattles
      else if truthy (get_field (params_of filters) "trending")
      then Data.mockTrendingBattles
      else if truthy (get_field (params_of filters) "category")
      then filter (fun b => strict_eq_string b.(category)
                              (get_field (params_of filters) "category"))
                  Data.mockBattles
      else Data.mockBattles.
Proof.
  intros apiClient env filters.
  unfold BattleService.getBattles. rewrite dev_client.
  cbn [client_get BattleService.mockApiClient].
  rewrite get_battles_url by reflexivity.
  unfold battles_list_branch.
  change (or_ (get_field_opt (VObj [("params", filters)]) "params") (VObj []))
    with (params_of filters).
  destruct (truthy (get_field (params_of filters) "quick_picks"));
    destruct (truthy (get_field (params_of filters) "personalized"));
    destruct (truthy (get_field (params_of filters) "trending"));
    destruct (truthy (get_field (params_of filters) "category"));
    lazymatch goal with
    | |- _ = ?l => exact (returned_battles_list l)
    end.
Qed.

Example getBattles_with_a_battle_as_filters :
  returned_battles
    (BattleService.getBattles "development" Voting.offline Voting.env0
       (VBattle Data.battle_iphone))
  = [Data.battle_iphone; Data.battle_tesla].
Proof. reflexivity. Qed.

(** X5. [getBattlesByCategory(c)] for a non-empty category returns
    exactly the mock battles of that category: a battle is in the
    response if and only if it is one of mockBattles and its category is
    [c]; so an unknown category gives the empty list. *)
Theorem getBattlesByCategory_exact :
  forall (apiClient : Client) (env : Env) (c : string) (b : Battle),
    c <> "" ->
    In b (returned_battles
            (BattleService.getBattlesByCategory "development" apiClient env c))
    <-> In b Data.mockBattles /\ b.(category) = c.
Proof.
  intros apiClient env c b Hc.
  rewrite RankingProperties.dev_getBattlesByCategory, returned_battles_list.
  unfold category_battles, Data.getMockBattlesByCategory.
  apply String.eqb_neq in Hc. rewrite Hc.
  rewrite filter_In, String.eqb_eq. tauto.
Qed.

Lemma getBattlesByCategory_exact_witness :
  In Data.battle_cola
     (returned_battles
        (BattleService.getBattlesByCategory "development" Voting.offline
           Voting.env0 "food"))
  <-> In Data.battle_cola Data.mockBattles /\ Data.battle_cola.(category) = "food".
Proof.
  apply (@getBattlesByCategory_exact Voting.offline Voting.env0 "food"
           Data.battle_cola).
  discriminate.
Defined.

Lemma dev_user_client (apiClient : HttpClient) (env : Env) :
  UserService.client "development" apiClient env = UserService.mockApiClient env.
Proof. reflexivity. Qed.

(** X6. In development mode [getUserProfile(username)] never rejects
    with 'User not found' and never resolves to one user: the users-list
    branch answers with all mock users, or, when the URL also contains
    '/battles/', the battles-list branch with all mock battles. *)
Theorem getUserProfile_returns_lists :
  forall (apiClient : HttpClient) (env : Env) (u : string),
    UserService.getUserProfile "development" apiClient env u
    = Resolved
        (if includes ("/users/" ++ u ++ "/") "/battles/"
         then list_envelope Data.mockBattles
         else data_envelope (VArr (map VUser Data.mockUsers))).
Proof.
  intros apiClient env u.
  unfold UserService.getUserProfile. rewrite dev_user_client.
  cbn [base client_get UserService.mockApiClient BattleService.mockApiClient].
  destruct (includes ("/users/" ++ u ++ "/") "/battles/") eqn:E.
  - rewrite get_battles_url by exact E. reflexivity.
  - rewrite get_other_url by exact E.
    rewrite RoutingProperties.users_list_condition_truthy.
    rewrite includes_prefix. reflexivity.
Qed.

(** X7. In development mode [getUserBattles(username)] resolves, for
    every username, to the battles-list envelope with all of
    mockBattles: its URL '/users/<name>/battles/' contains '/battles/',
    so the first routing condition catches it. *)
Theorem getUserBattles_returns_all_battles :
  forall (apiClient : HttpClient) (env : Env) (u : string),
    UserService.getUserBattles "development" apiClient env u
    = Resolved (list_envelope Data.mockBattles).
Proof.
  intros apiClient env u.
  unfold UserService.getUserBattles. rewrite dev_user_client.
  cbn [base client_get UserService.mockApiClient BattleService.mockApiClient].
  rewrite get_battles_url; [reflexivity|].
  apply (RoutingProperties.includes_app_r "/users/").
  apply (RoutingProperties.includes_app_r u).
  reflexivity.
Qed.

(** X8. In development mode [login] and [register] succeed with any
    request data and resolve to the same envelope, whose data carries
    mockUsers[0] and the token 'mock-jwt-token': the result itself has
    no [token] and no [user] field. *)
Theorem login_accepts_anything :
  forall (apiClient : HttpClient) (env : Env) (data : Value),
    UserService.login "development" apiClient env data
    = Resolved (data_envelope (VObj [("user", VUser Data.user_testuser);
                                     ("token", VStr "mock-jwt-token")]))
    /\ UserService.register "development" apiClient env data
       = UserService.login "development" apiClient env data
    /\ (forall response,
           UserService.login "development" apiClient env data = Resolved response ->
           get_field response "token" = VUndefined
           /\ get_field response "user" = VUndefined
           /\ get_field (get_field response "data") "token" = VStr "mock-jwt-token").
Proof.
  intros apiClient env data.
  split; [reflexivity|]. split; [reflexivity|].
  intros response H. injection H as <-. repeat split.
Qed.

End ServiceProperties.

(* ================================================================= *)
(** ** Object literals and the create-battle response *)

Module CreateBattleProperties.
Import MockApiClient Envelope.

Lemma lookup_set_field (k k' : string) (v : Value) (f : list (string * Value)) :
  lookup k' (set_field k v f)
  = if String.eqb k' k then Some v else lookup k' f.
Proof.
  induction f as [|[k0 v0] f IH]; simpl.
  - reflexivity.
  - destruct (String.eqb_spec k k0) as [->|Hk]; simpl.
    + destruct (String.eqb k' k0); reflexivity.
    + rewrite IH.
      destruct (String.eqb_spec k' k0) as [->|Hk'].
      * destruct (String.eqb_spec k0 k); [congruence|reflexivity].
      * reflexivity.
Qed.

Lemma lookup_app (k : string) (f g : list (string * Value)) :
  lookup k (f ++ g)
  = match lookup k f with Some v => Some v | None => lookup k g end.
Proof.
  induction f as [|[k0 v0] f IH]; simpl; [reflexivity|].
  destruct (String.eqb k k0); [reflexivity|exact IH].
Qed.

(** Evaluating an object literal: the last value written under a key
    stays. *)
Lemma lookup_fold (k : string) (kvs acc : list (string * Value)) :
  lookup k (fold_left (fun a kv => set_field (fst kv) (snd kv) a) kvs acc)
  = match lookup k (rev kvs) with
    | Some v => Some v
    | None => lookup k acc
    end.
Proof.
  revert acc. induction kvs as [|[k0 v0] kvs IH]; intros acc; simpl.
  - reflexivity.
  - rewrite IH, lookup_app. simpl.
    rewrite lookup_set_field.
    destruct (lookup k (rev kvs)); [reflexivity|].
    destruct (String.eqb k k0); reflexivity.
Qed.

Lemma lookup_In (k : string) (v : Value) (f : list (string * Value)) :
  NoDup (map fst f) -> In (k, v) f -> lookup k f = Some v.
Proof.
  induction f as [|[k0 v0] f IH]; simpl; intros Hnd Hin; [contradiction|].
  inversion Hnd as [|? ? Hk0 Hf]; subst.
  destruct Hin as [[= -> ->]|Hin].
  - now rewrite String.eqb_refl.
  - destruct (String.eqb_spec k k0) as [->|_].
    + exfalso. apply Hk0. apply in_map_iff. exists (k0, v). auto.
    + auto.
Qed.

Lemma lookup_Some_In (k : string) (v : Value) (f : list (string * Value)) :
  lookup k f = Some v -> In (k, v) f.
Proof.
  induction f as [|[k0 v0] f IH]; simpl; [discriminate|].
  destruct (String.eqb_spec k k0) as [->|_].
  - intros [= ->]. now left.
  - intros H. right. auto.
Qed.

Lemma lookup_None_In (k : string) (f : list (string * Value)) :
  lookup k f = None -> ~ In k (map fst f).
Proof.
  induction f as [|[k0 v0] f IH]; simpl; [tauto|].
  destruct (String.eqb_spec k k0) as [->|Hk]; [discriminate|].
  intros H [E|Hin]; [congruence|]. now apply IH.
Qed.

(** In an object, whose keys are distinct, the order of the properties
    plays no part in a lookup. *)
Lemma lookup_rev (k : string) (f : list (string * Value)) :
  NoDup (map fst f) -> lookup k (rev f) = lookup k f.
Proof.
  intros Hnd.
  assert (Hrev : NoDup (map fst (rev f))).
  { rewrite map_rev. apply NoDup_rev. exact Hnd. }
  destruct (lookup k f) as [v|] eqn:E.
  - apply lookup_In; [exact Hrev|].
    apply in_rev. rewrite rev_involutive. now apply lookup_Some_In.
  - destruct (lookup k (rev f)) as [v|] eqn:E'; [|reflexivity].
    exfalso. apply (lookup_None_In _ _ E).
    apply lookup_Some_In in E'. apply in_rev in E'.
    apply in_map_iff. exists (k, v). auto.
Qed.

Lemma literal_field (first : string * Value)
      (fields server : list (string * Value)) (k : string) :
  get_field (object_literal ([first] ++ fields ++ server)) k
  = match lookup k (rev server) with
    | Some v => v
    | None =>
        match lookup k (rev fields) with
        | Some v => v
        | None => if String.eqb k (fst first) then snd first else VUndefined
        end
    end.
Proof.
  unfold object_literal, get_field.
  rewrite lookup_fold.
  change ([first] ++ fields ++ server)%list with ((first :: fields) ++ server)%list.
  rewrite rev_app_distr, lookup_app.
  destruct (lookup k (rev server)); [reflexivity|].
  simpl rev. rewrite lookup_app.
  destruct (lookup k (rev fields)); [reflexivity|].
  destruct first as [k0 v0]. simpl.
  destruct (String.eqb k k0); reflexivity.
Qed.

Lemma newBattle_field (env : Env) (fields : list (string * Value)) (k : string) :
  get_field (newBattle env (VObj fields)) k
  = match lookup k
            (rev [("creator", of_option VUser (nth_error Data.mockUsers 0));
                  ("created_at", VStr env.(now_iso));
                  ("is_active", VBool true);
                  ("trending_score", VNum 0);
                  ("total_votes", VNum 0);
                  ("user_voted", VBool false);
                  ("user_vote_element", VNull);
                  ("engagement_stats",
                   VObj [("total_votes", VNum 0); ("likes", VNum 0);
                         ("shares", VNum 0); ("comments", VNum 0);
                         ("views", VNum 0)])]) with
    | Some v => v
    | None =>
        match lookup k (rev fields) with
        | Some v => v
        | None => if String.eqb k "id" then VStr env.(random_id) else VUndefined
        end
    end.
Proof. apply literal_field. Qed.

(** X9. Creating a battle in development mode: the response's battle
    keeps every field of the request, except that the mock overwrites
    creator (mockUsers[0]), created_at, is_active (true), trending_score
    and total_votes (0), user_voted (false), user_vote_element and
    engagement_stats; the generated id is used only when the request has
    no id of its own, since [...data] is spread after it. *)
Theorem createBattle_fields :
  forall (apiClient : Client) (env : Env) (fields : list (string * Value)),
    NoDup (map fst fields) ->
    BattleService.createBattle "development" apiClient env (VObj fields)
    = Resolved (data_envelope (newBattle env (VObj fields)))
    /\ get_field (newBattle env (VObj fields)) "creator" = VUser Data.user_testuser
    /\ get_field (newBattle env (VObj fields)) "created_at" = VStr env.(now_iso)
    /\ get_field (newBattle env (VObj fields)) "is_active" = VBool true
    /\ get_field (newBattle env (VObj fields)) "trending_score" = VNum 0
    /\ get_field (newBattle env (VObj fields)) "total_votes" = VNum 0
    /\ get_field (newBattle env (VObj fields)) "user_voted" = VBool false
    /\ get_field (newBattle env (VObj fields)) "user_vote_element" = VNull
    /\ get_field (newBattle env (VObj fields)) "id"
       = match lookup "id" fields with
         | Some v => v
         | None => VStr env.(random_id)
         end
    /\ (forall k : string,
           is_server_key k = false -> k <> "id" ->
           get_field (newBattle env (VObj fields)) k = get_field (VObj fields) k).
Proof.
  intros apiClient env fields Hnd.
  split; [reflexivity|].
  repeat (split; [rewrite newBattle_field; reflexivity|]).
  split.
  - rewrite newBattle_field. simpl lookup at 1.
    rewrite (@lookup_rev "id" fields Hnd). now destruct (lookup "id" fields).
  - intros k Hk Hid. rewrite newBattle_field.
    unfold is_server_key, server_keys in Hk. simpl in Hk.
    repeat (apply orb_false_iff in Hk; destruct Hk as [? Hk]).
    simpl rev. simpl lookup at 1.
    repeat match goal with
           | H : String.eqb k _ = false |- _ => rewrite H; clear H
           end.
    rewrite (@lookup_rev k fields Hnd). simpl.
    destruct (lookup k fields); [reflexivity|].
    apply String.eqb_neq in Hid. now rewrite Hid.
Qed.

Lemma createBattle_fields_witness :
  let fields := [("title", VStr "Cats vs Dogs"); ("category", VStr "other");
                 ("is_active", VBool false)] in
  get_field (newBattle Voting.env0 (VObj fields)) "is_active" = VBool true
  /\ get_field (newBattle Voting.env0 (VObj fields)) "id" = VStr "k3j9x2m1q".
Proof.
  intros fields.
  assert (Hnd : NoDup (map fst fields)).
  { repeat constructor; simpl; intuition discriminate. }
  pose proof (@createBattle_fields Voting.offline Voting.env0 fields Hnd) as T.
  split.
  - exact (proj1 (proj2 (proj2 (proj2 T)))).
  - exact (proj1 (proj2 (proj2 (proj2 (proj2 (proj2 (proj2 (proj2 (proj2 T))))))))).
Defined.

End CreateBattleProperties.

(* ================================================================= *)
(** ** Authentication state (hooks/useAuth.ts) *)

Module AuthProperties.
Import UseAuth.

Lemma mockUser_is_testuser : mockUser = Data.user_testuser.
Proof. reflexivity. Qed.

(** X10. Logging in in development mode, with any request data and
    from any state: the service hands back the envelope, which has no
    token and no user field, so the hook stores the text "undefined" as
    auth_token and sets the user to undefined: the caller is not
    authenticated after the login.  The stored text is non-empty, so the
    next [checkAuth] does authenticate, as mockUsers[0]. *)
Theorem dev_login_stores_undefined :
  forall (number_toString : Q -> string) (apiClient : HttpClient)
         (env : MockApiClient.Env) (data : Value) (st : State),
    let st' := fst (login number_toString "development" apiClient env data st) in
    st'.(auth_token) = Some "undefined"
    /\ st'.(user) = VUndefined
    /\ isAuthenticated st' = false
    /\ st'.(loading) = false
    /\ st'.(error) = None
    /\ is_rejected (snd (login number_toString "development" apiClient env data st))
       = false
    /\ (checkAuth st').(user) = VUser Data.user_testuser
    /\ isAuthenticated (checkAuth st') = true.
Proof.
  intros number_toString apiClient env data st st'. subst st'.
  repeat split.
Qed.

(** X11. A failed login, whatever client is behind the service and
    whatever it rejects with: the stored token and the user stay as they
    were, loading ends, the error shown is the message or, when that is
    empty, 'Login failed', so never empty, and the rejection is passed
    on.  A failed registration, likewise and on its own, with
    'Registration failed'. *)
Theorem failed_sign_in_keeps_session :
  forall (number_toString : Q -> string) (NODE_ENV : string)
         (apiClient : HttpClient) (env : MockApiClient.Env)
         (data : Value) (st : State) (m : string),
    (UserService.login NODE_ENV apiClient env data = Rejected m ->
     let after := login number_toString NODE_ENV apiClient env data st in
     (fst after).(auth_token) = st.(auth_token)
     /\ (fst after).(user) = st.(user)
     /\ (fst after).(loading) = false
     /\ (fst after).(error) = Some (if String.eqb m "" then "Login failed" else m)
     /\ (fst after).(error) <> Some ""
     /\ snd after = Rejected m)
    /\ (UserService.register NODE_ENV apiClient env data = Rejected m ->
        let after := register number_toString NODE_ENV apiClient env data st in
        (fst after).(auth_token) = st.(auth_token)
        /\ (fst after).(user) = st.(user)
        /\ (fst after).(loading) = false
        /\ (fst after).(error)
           = Some (if String.eqb m "" then "Registration failed" else m)
        /\ (fst after).(error) <> Some ""
        /\ snd after = Rejected m).
Proof.
  intros number_toString NODE_ENV apiClient env data st m.
  split; intros H after; subst after;
    unfold login, register, sign_in; rewrite H; cbn [bind fst snd];
    cbn [auth_token user loading error]; unfold message_or;
    repeat split;
    (destruct (String.eqb_spec m "") as [->|Hm]; [discriminate|];
     intros [= ->]; now apply Hm).
Qed.

(** An HTTP client none of whose requests gets through. *)
Lemma failed_sign_in_keeps_session_witness :
  let offline :=
    {| base := Voting.offline;
       client_put := fun _ _ => Rejected "Network Error";
       client_delete := fun _ => Rejected "Network Error" |} in
  let st := {| user := VNull; loading := false; error := None;
               auth_token := None |} in
  ((fst (login (fun _ => "") "production" offline Voting.env0 VUndefined st)).(error)
   = Some "Network Error"
   /\ snd (login (fun _ => "") "production" offline Voting.env0 VUndefined st)
      = Rejected "Network Error")
  /\ ((fst (register (fun _ => "") "production" offline Voting.env0 VUndefined
              st)).(error)
      = Some "Network Error"
      /\ snd (register (fun _ => "") "production" offline Voting.env0 VUndefined st)
         = Rejected "Network Error").
Proof.
  intros offline st.
  pose proof (@failed_sign_in_keeps_session (fun _ => "") "production" offline
                Voting.env0 VUndefined st "Network Error") as [L R].
  specialize (L eq_refl). specialize (R eq_refl).
  split; split.
  - exact (proj1 (proj2 (proj2 (proj2 L)))).
  - exact (proj2 (proj2 (proj2 (proj2 (proj2 L))))).
  - exact (proj1 (proj2 (proj2 (proj2 R)))).
  - exact (proj2 (proj2 (proj2 (proj2 (proj2 R))))).
Defined.


End AuthProperties.

(* ================================================================= *)
(** ** Fetch state and the personalized section *)

Module FetchProperties.
Import FetchState PersonalizedSection.

Example bare_array_renders_cards :
  render (fetchPersonalized "production" Envelope.bare_array_client Voting.env0
            initial)
  = Cards (MockApiClient.battles_value Data.mockBattles).
Proof. reflexivity. Qed.

Example string_of_battles_cannot_be_mapped :
  render {| battles := VStr "oops"; loading := false; error := None |}
  = RenderError.
Proof. reflexivity. Qed.

(** X13. In development mode the personalized section shows its empty
    state, 'No personalized battles available', after every fetch and
    from every previous state: the hook stores the response envelope as
    [battles], an object without a length. *)
Theorem dev_personalized_section_is_empty :
  forall (apiClient : Client) (env : MockApiClient.Env) (st : State),
    let st' := fetchPersonalized "development" apiClient env st in
    st'.(battles)
    = Envelope.data_envelope
        (MockApiClient.battles_value Data.mockPersonalizedBattles)
    /\ length_opt st'.(battles) = VUndefined
    /\ render st' = NoBattles.
Proof.
  intros apiClient env st st'. subst st'. repeat split.
Qed.

End FetchProperties.

Module FetchErrorProperties.
Import FetchState PersonalizedSection.

(** X14. When the service call behind any of the six fetch functions
    rejects, with whatever message: the battles shown before stay,
    loading ends, the error is the message or, when that is empty, the
    hook's own fallback, so it is never empty, and the personalized
    section rendered from such a state shows its error view, not the
    empty state. *)
Theorem failed_fetch_shows_error :
  forall (NODE_ENV : string) (apiClient : Client) (env : MockApiClient.Env)
         (f : UseBattles.Fetch) (st : State) (m : string),
    service_call NODE_ENV apiClient env f = Rejected m ->
    let st' := run NODE_ENV apiClient env f st in
    st'.(battles) = st.(battles)
    /\ st'.(loading) = false
    /\ st'.(error) = Some (if String.eqb m "" then fallback_of f else m)
    /\ st'.(error) <> Some ""
    /\ render st' = LoadError.
Proof.
  intros NODE_ENV apiClient env f st m H st'. subst st'.
  assert (Hrun : run NODE_ENV apiClient env f st
                 = settle (fallback_of f) (service_call NODE_ENV apiClient env f) st)
    by (destruct f; reflexivity).
  rewrite Hrun, H. unfold settle, render, UseAuth.message_or.
  cbn [battles loading error error_truthy].
  assert (Hne : (if String.eqb m "" then fallback_of f else m) <> "").
  { destruct (String.eqb_spec m "") as [->|Hm]; [|exact Hm].
    destruct f; discriminate. }
  repeat split.
  - intros [= E]. now apply Hne.
  - apply String.eqb_neq in Hne. now rewrite Hne.
Qed.

Lemma failed_fetch_shows_error_witness :
  render (run "production" Voting.offline Voting.env0 UseBattles.fetchTrending
            initial)
  = LoadError.
Proof.
  exact (proj2 (proj2 (proj2 (proj2
    (@failed_fetch_shows_error "production" Voting.offline Voting.env0
       UseBattles.fetchTrending initial "Network Error" eq_refl))))).
Defined.

End FetchErrorProperties.

(* ================================================================= *)
(** ** The element buttons of the create-battle form *)

Module ElementButtons.
Import CreateBattleModal.

Lemma filter_index_out (A : Type) (index : Z) (i : nat) (l : list A) :
  (index < Z.of_nat i \/ Z.of_nat (i + List.length l) <= index)%Z ->
  filter_index index i l = l.
Proof.
  revert i. induction l as [|x l IH]; intros i H; simpl; [reflexivity|].
  simpl in H.
  destruct (Z.eqb_spec (Z.of_nat i) index) as [E|_]; [lia|].
  f_equal. apply IH. lia.
Qed.

Lemma filter_index_in (A : Type) (n i : nat) (l : list A) :
  (n < List.length l)%nat ->
  filter_index (Z.of_nat (i + n)) i l = (firstn n l ++ skipn (S n) l)%list.
Proof.
  revert n i. induction l as [|x l IH]; intros n i H; simpl in H; [lia|].
  simpl filter_index.
  destruct n as [|n].
  - rewrite Nat.add_0_r, Z.eqb_refl. simpl.
    apply filter_index_out. lia.
  - destruct (Z.eqb_spec (Z.of_nat i) (Z.of_nat (i + S n))) as [E|_]; [lia|].
    replace (i + S n)%nat with (S i + n)%nat by lia.
    rewrite IH by lia. reflexivity.
Qed.

Lemma removeElement_length (index : Z) (l : list FormElement) :
  (List.length l - 1 <= List.length (removeElement index l) <= List.length l)%nat.
Proof.
  unfold removeElement. destruct (2 <? List.length l)%nat; [|lia].
  destruct (Z_lt_le_dec index 0) as [Hneg|Hpos].
  - rewrite filter_index_out by lia. lia.
  - destruct (le_lt_dec (List.length l) (Z.to_nat index)) as [Hout|Hin].
    + rewrite filter_index_out by lia. lia.
    + replace index with (Z.of_nat (0 + Z.to_nat index)) by lia.
      rewrite filter_index_in by exact Hin.
      rewrite length_app, length_firstn, length_skipn. lia.
Qed.

Lemma click_keeps_count (l : list FormElement) (c : Click) :
  elements_count_ok l = true -> elements_count_ok (click l c) = true.
Proof.
  unfold elements_count_ok. rewrite !andb_true_iff, !Nat.leb_le.
  intros [Hlo Hhi]. destruct c as [|index]; simpl.
  - unfold addElement.
    destruct (Nat.ltb_spec (List.length l) 10); [|lia].
    rewrite length_app. simpl. lia.
  - pose proof (removeElement_length index l) as Hlen.
    unfold removeElement in *.
    destruct (Nat.ltb_spec 2 (List.length l)); lia.
Qed.

(** X15. The two element buttons keep the form within the bounds of
    the schema: from a list of 2 to 10 elements, such as the default
    one, every sequence of additions and removals, at whatever
    positions, leaves between 2 and 10 elements. *)
Theorem element_buttons_keep_bounds :
  forall (l : list FormElement) (clicks : list Click),
    elements_count_ok l = true ->
    elements_count_ok (fold_left click clicks l) = true.
Proof.
  intros l clicks. revert l.
  induction clicks as [|c clicks IH]; intros l H; simpl.
  - exact H.
  - apply IH. now apply click_keeps_count.
Qed.

Lemma element_buttons_keep_bounds_witness :
  elements_count_ok
    (fold_left click [ClickRemove 0; ClickAdd; ClickAdd; ClickRemove 1]
       defaultElements) = true.
Proof.
  apply (@element_buttons_keep_bounds defaultElements
           [ClickRemove 0; ClickAdd; ClickAdd; ClickRemove 1]).
  reflexivity.
Defined.

(** X16. Removing an element: with more than two elements and a
    position inside the list exactly the element at that position goes
    and the others keep their order; with a position outside the list
    (negative, or the length and beyond) or with two elements or fewer
    nothing changes. *)
Theorem removeElement_exact :
  forall (l : list FormElement) (index : Z),
    removeElement index l
    = if (2 <? List.length l)%nat
         && (0 <=? index)%Z && (index <? Z.of_nat (List.length l))%Z
      then (firstn (Z.to_nat index) l ++ skipn (S (Z.to_nat index)) l)%list
      else l.
Proof.
  intros l index. unfold removeElement.
  destruct (2 <? List.length l)%nat; [|reflexivity]. simpl.
  destruct (Z.leb_spec 0 index) as [Hpos|Hneg]; simpl.
  - destruct (Z.ltb_spec index (Z.of_nat (List.length l))) as [Hin|Hout].
    + replace index with (Z.of_nat (0 + Z.to_nat index)) at 1 by lia.
      apply filter_index_in. lia.
    + apply filter_index_out. lia.
  - apply filter_index_out. lia.
Qed.

(** X17. Adding an element and removing the last one again gives the
    list back, as long as there is room to add (fewer than 10) and
    there were at least 2 elements; at 10 elements adding does nothing. *)
Theorem add_then_remove_last :
  forall l : list FormElement,
    (2 <= List.length l)%nat ->
    (List.length l < 10)%nat ->
    addElement l = (l ++ [blank])%list
    /\ removeElement (Z.of_nat (List.length l)) (addElement l) = l.
Proof.
  intros l Hlo Hhi. unfold addElement.
  destruct (Nat.ltb_spec (List.length l) 10); [|lia].
  split; [reflexivity|].
  rewrite removeElement_exact, length_app. simpl List.length.
  destruct (Nat.ltb_spec 2 (List.length l + 1)); [|lia].
  destruct (Z.leb_spec 0 (Z.of_nat (List.length l))); [|lia].
  destruct (Z.ltb_spec (Z.of_nat (List.length l))
                       (Z.of_nat (List.length l + 1))); [|lia].
  cbn [andb]. rewrite Nat2Z.id.
  rewrite firstn_app, Nat.sub_diag, firstn_all, firstn_O.
  rewrite skipn_all2 by (rewrite length_app; simpl; lia).
  now rewrite !app_nil_r.
Qed.

Lemma add_then_remove_last_witness :
  removeElement 2 (addElement defaultElements) = defaultElements.
Proof.
  apply (@add_then_remove_last defaultElements); simpl; lia.
Defined.

End ElementButtons.

(* ================================================================= *)
(** ** The follow button of the profile page *)

Module FollowProperties.
Import UserProfilePage.

(** X18. Following and unfollowing cancel out: two clicks on the follow
    button restore the state, follower count included; one click flips
    [isFollowing] and moves the follower count by exactly one, up when
    the viewer was not following and down when they were, and leaves
    every other field of the user alone. *)
Theorem handleFollow_involution :
  forall st : State,
    handleFollow (handleFollow st) = st
    /\ (handleFollow st).(isFollowing) = negb st.(isFollowing)
    /\ (forall u : ProfileUser,
           st.(user) = Some u ->
           exists u',
             (handleFollow st).(user) = Some u'
             /\ u'.(followersCount)
                = (u.(followersCount) + if st.(isFollowing) then -1 else 1)%Z
             /\ with_followersCount u' u.(followersCount) = u).
Proof.
  intros [[u|] following]; unfold handleFollow; cbn [user isFollowing].
  - split; [|split; [reflexivity|]].
    + destruct u as [i n e b bc fc fg tv ca], following; cbn.
      * replace (fc - 1 + 1)%Z with fc by lia. reflexivity.
      * replace (fc + 1 - 1)%Z with fc by lia. reflexivity.
    + intros u0 [= <-]. eexists. split; [reflexivity|].
      destruct u, following; cbn; split; reflexivity || lia.
  - split; [|split; [reflexivity|]].
    + now rewrite negb_involutive.
    + intros u [=].
Qed.

End FollowProperties.

(* ================================================================= *)
(** ** Several polling hooks side by side *)

Module PollingComposition.
Import UseBattles.

Lemma effect_fresh (h : Hook) (rt : Runtime) :
  handles_fresh rt -> handles_fresh (fst (effect h rt)).
Proof.
  unfold handles_fresh. intros H. rewrite Polling.effect_guarded.
  destruct (guard h); [|exact H].
  cbn [poll setInterval call fst intervals next_handle].
  apply Forall_app. split.
  - eapply Forall_impl; [|exact H]. intros i Hi. simpl in Hi. lia.
  - constructor; [simpl; lia|constructor].
Qed.

Lemma clearInterval_fresh_any (k : nat) (rt : Runtime) :
  handles_fresh rt -> handles_fresh (clearInterval k rt).
Proof.
  unfold handles_fresh, clearInterval. cbn [intervals next_handle].
  intros H. rewrite Forall_forall in *. intros i Hi.
  apply filter_In in Hi. now apply H.
Qed.

Lemma clear_unknown (k : nat) (l : list Interval) :
  Forall (fun i => (i.(handle) < k)%nat) l ->
  filter (fun i => negb (Nat.eqb i.(handle) k)) l = l.
Proof.
  induction 1 as [|i l Hi _ IH]; simpl; [reflexivity|].
  destruct (Nat.eqb_spec i.(handle) k); [lia|]. simpl. now rewrite IH.
Qed.

(** X19. Hooks mounted side by side do not disturb each other: when a
    second hook is mounted after a first one and the first one is then
    unmounted, its cleanup removes its own interval only; the intervals
    that ran before and the second hook's interval go on, and handles
    stay unique. *)
Theorem cleanup_leaves_other_hooks :
  forall (h1 h2 : Hook) (rt : Runtime),
    handles_fresh rt ->
    guard h1 = true ->
    guard h2 = true ->
    let rt1 := fst (effect h1 rt) in
    let cleanup1 := snd (effect h1 rt) in
    let rt2 := fst (effect h2 rt1) in
    (run_cleanup cleanup1 rt2).(intervals)
    = (rt.(intervals) ++ [polling_interval h2 rt1])%list
    /\ (polling_interval h2 rt1).(handle)
       <> (polling_interval h1 rt).(handle)
    /\ handles_fresh (run_cleanup cleanup1 rt2).
Proof.
  intros h1 h2 rt Hfresh G1 G2 rt1 cleanup1 rt2.
  assert (Hfresh1 : handles_fresh rt1) by (apply effect_fresh; exact Hfresh).
  assert (Hfresh2 : handles_fresh rt2) by (apply effect_fresh; exact Hfresh1).
  subst rt2 cleanup1. revert Hfresh1 Hfresh2. subst rt1.
  rewrite !Polling.effect_guarded, G1, G2.
  cbn [poll setInterval call fst snd intervals next_handle run_cleanup].
  intros Hfresh1 Hfresh2.
  split; [|split].
  - unfold clearInterval. cbn [intervals].
    rewrite !filter_app. cbn [filter handle].
    rewrite Nat.eqb_refl.
    destruct (Nat.eqb_spec (S (next_handle rt)) (next_handle rt)); [lia|].
    cbn [negb app]. rewrite clear_unknown by exact Hfresh.
    now rewrite app_nil_r.
  - cbn. lia.
  - apply clearInterval_fresh_any. exact Hfresh2.
Qed.

Lemma cleanup_leaves_other_hooks_witness :
  (run_cleanup (snd (effect useTrendingBattles initial))
     (fst (effect (useBattle "3")
             (fst (effect useTrendingBattles initial))))).(intervals)
  = [{| handle := 2; callback := fetchBattle "3"; delay_ms := 300000 |}].
Proof.
  assert (H : handles_fresh initial) by constructor.
  exact (proj1 (@cleanup_leaves_other_hooks useTrendingBattles (useBattle "3")
                  initial H eq_refl eq_refl)).
Defined.

(** X20. Mounting a hook again after its cleanup (a changed id, filter
    or category, or a remount) leaves exactly one interval of that hook
    running: the old one is gone and the new one has a new handle; the
    data was fetched once per mount. *)
Theorem remount_keeps_one_interval :
  forall (h h' : Hook) (rt : Runtime),
    handles_fresh rt ->
    guard h = true ->
    guard h' = true ->
    let rt1 := fst (effect h rt) in
    let rt2 := run_cleanup (snd (effect h rt)) rt1 in
    let rt3 := fst (effect h' rt2) in
    rt3.(intervals)
    = (rt.(intervals)
       ++ [{| handle := S rt.(next_handle);
              callback := fetch_of h';
              delay_ms := 5 * 60 * 1000 |}])%list
    /\ rt3.(fetched) = (rt.(fetched) ++ [fetch_of h; fetch_of h'])%list.
Proof.
  intros h h' rt Hfresh G G' rt1 rt2 rt3. subst rt3 rt2 rt1.
  rewrite !Polling.effect_guarded, G, G'.
  cbn [poll setInterval call fst snd intervals next_handle fetched run_cleanup
       clearInterval].
  rewrite filter_app. cbn [filter handle]. rewrite Nat.eqb_refl. cbn [negb].
  rewrite clear_unknown by exact Hfresh.
  rewrite app_nil_r, <- app_assoc. split; reflexivity.
Qed.

Lemma remount_keeps_one_interval_witness :
  (fst (effect (useBattle "2")
          (run_cleanup (snd (effect (useBattle "1") initial))
             (fst (effect (useBattle "1") initial))))).(intervals)
  = [{| handle := 2; callback := fetchBattle "2"; delay_ms := 300000 |}].
Proof.
  assert (H : handles_fresh initial) by constructor.
  exact (proj1 (@remount_keeps_one_interval (useBattle "1") (useBattle "2")
                  initial H eq_refl eq_refl)).
Defined.

End PollingComposition.

(* ================================================================= *)
(** ** Lookups in the mock data *)

Module MockDataProperties.
Import Data.

(** X21. [getMockBattleById] and [getMockUserByUsername] are exact
    lookups: the battle returned for an id is the mock battle with that
    id, every mock battle is found under its own id, and an id of no
    mock battle gives undefined; likewise for users and usernames. *)
Theorem mock_lookups_exact :
  forall (i : string) (b : Battle) (u : User),
    (getMockBattleById i = Some b <-> In b mockBattles /\ b.(id) = i)
    /\ (getMockBattleById i = None <-> forall b', In b' mockBattles -> b'.(id) <> i)
    /\ (getMockUserByUsername i = Some u <-> In u mockUsers /\ u.(username) = i)
    /\ (getMockUserByUsername i = None
        <-> forall u', In u' mockUsers -> u'.(username) <> i).
Proof.
  intros i b u. unfold getMockBattleById, getMockUserByUsername, Js.find.
  split; [|split; [|split]].
  - split.
    + intros H. apply find_some in H as [Hin Hid].
      apply String.eqb_eq in Hid. auto.
    + intros [Hin <-].
      simpl in Hin.
      repeat (destruct Hin as [<-|Hin]; [reflexivity|]). contradiction.
  - split.
    + intros H b' Hin Hid. eapply find_none in H; [|exact Hin].
      simpl in H. apply String.eqb_neq in H. contradiction.
    + intros H.
      destruct (List.find (fun battle => String.eqb battle.(id) i) mockBattles)
        as [b'|] eqn:E; [|reflexivity].
      apply find_some in E as [Hin Hid]. apply String.eqb_eq in Hid.
      exfalso. exact (H b' Hin Hid).
  - split.
    + intros H. apply find_some in H as [Hin Hid].
      apply String.eqb_eq in Hid. auto.
    + intros [Hin <-].
      simpl in Hin.
      repeat (destruct Hin as [<-|Hin]; [reflexivity|]). contradiction.
  - split.
    + intros H u' Hin Hid. eapply find_none in H; [|exact Hin].
      simpl in H. apply String.eqb_neq in H. contradiction.
    + intros H.
      destruct (List.find (fun user => String.eqb user.(username) i) mockUsers)
        as [u'|] eqn:E; [|reflexivity].
      apply find_some in E as [Hin Hid]. apply String.eqb_eq in Hid.
      exfalso. exact (H u' Hin Hid).
Qed.

End MockDataProperties.

(* ================================================================= *)
(** ** Vote validation: other voters are not affected *)

Module ValidationProperties.
Import Plan.

(** X22. A stored vote blocks its own identity only: adding a vote row
    to the table does not change the outcome of [validate_vote] for a
    request whose battle, address or fingerprint differs from the row's;
    so a second device behind the same address can still vote in the
    same battle, and the same device can vote in another battle. *)
Theorem validate_vote_other_identity :
  forall (Request : Type) (get_client_ip generate_fingerprint : Request -> string)
         (table : list Vote) (row : Vote) (battle element : string)
         (request : Request),
    key row <> (battle, get_client_ip request, generate_fingerprint request) ->
    validate_vote get_client_ip generate_fingerprint (table ++ [row])
      battle element request
    = validate_vote get_client_ip generate_fingerprint table battle element request.
Proof.
  intros Request ip fp table row battle element request Hkey.
  assert (E : key_eqb (key row) (battle, ip request, fp request) = false).
  { destruct (key_eqb (key row) (battle, ip request, fp request)) eqn:E;
      [|reflexivity].
    apply key_eqb_eq in E. contradiction. }
  unfold validate_vote. rewrite existsb_app. cbn [existsb].
  now rewrite E, !orb_false_r.
Qed.

Lemma validate_vote_other_identity_witness :
  let row := {| battle_id := "1"; element_id := "1";
                voter_ip := "203.0.113.7"; fingerprint := "f1e2d3";
                session_id := None |} in
  validate_vote fst snd ([] ++ [row])%list "1" "2" ("203.0.113.7", "a9b8c7")
  = validate_vote fst snd [] "1" "2" ("203.0.113.7", "a9b8c7").
Proof.
  intros row.
  apply (@validate_vote_other_identity (string * string) fst snd [] row
           "1" "2" ("203.0.113.7", "a9b8c7")).
  discriminate.
Defined.

End ValidationProperties.

(* ================================================================= *)
(** ** Updating the profile in development mode *)

Module UpdateProfileProperties.
Import UseAuth.

(** X23. In development mode [updateProfile] echoes: the service
    resolves to the envelope around the very data sent, and the hook
    stores that envelope, not a user, as [user]; since an object is
    truthy the caller counts as authenticated afterwards whatever the
    state was, and the stored token is not touched. *)
Theorem dev_updateProfile_echoes :
  forall (number_toString : Q -> string) (apiClient : HttpClient)
         (env : MockApiClient.Env) (data : Value) (st : State),
    UserService.updateProfile "development" apiClient env data
    = Resolved (Envelope.data_envelope data)
    /\ (fst (updateProfile "development" apiClient env data st)).(user)
       = Envelope.data_envelope data
    /\ get_field (fst (updateProfile "development" apiClient env data st)).(user)
                 "data" = data
    /\ isAuthenticated (fst (updateProfile "development" apiClient env data st))
       = true
    /\ (fst (updateProfile "development" apiClient env data st)).(auth_token)
       = st.(auth_token).
Proof.
  intros number_toString apiClient env data st. repeat split.
Qed.

End UpdateProfileProperties.
